(** * reproduce_figures.py: the orchestration script, embedded and verified

    The script checks that four input files exist, prepares the output
    directory, builds four figures through the [postprocessing] module and
    saves them.  Everything it does is an effect on the file system, on
    standard output or a call to a collaborator, so the embedding is a
    state-and-exception monad over a file system, which also records the
    chronological list of the calls the script makes. *)

From Stdlib Require Import String Ascii List ZArith Lia Bool.
From stdpp Require Import gmap strings list fin_maps.

Local Open Scope string_scope.
Local Open Scope list_scope.

(** ** pathlib: pure paths *)

Module Pathlib.

(** A POSIX path as [pathlib] holds it: whether it is anchored at the root,
    and its components.  Components are kept as given: [pathlib] does not
    collapse dot-dot components.  (A path that starts with exactly two
    slashes, which [pathlib] keeps apart, is read as an absolute one.) *)
Record Path : Type := mkPath { absolute : bool; parts : list string }.

#[global] Instance Path_eq_dec : EqDecision Path.
Proof. solve_decision. Defined.

#[global] Instance Path_countable : Countable Path.
Proof.
  refine (inj_countable' (fun p => (absolute p, parts p))
                         (fun t => mkPath (fst t) (snd t)) _).
  intros []; reflexivity.
Defined.

(** Splitting a string at every slash; the pieces may be empty. *)
Fixpoint split_slash (s : string) : list string :=
  match s with
  | EmptyString => [EmptyString]
  | String c s' =>
      if Ascii.eqb c "/"%char then EmptyString :: split_slash s'
      else match split_slash s' with
           | [] => [String c EmptyString]
           | w :: ws => String c w :: ws
           end
  end.

Fixpoint no_slash (w : string) : bool :=
  match w with
  | EmptyString => true
  | String c w' => negb (Ascii.eqb c "/"%char) && no_slash w'
  end.

(** Empty pieces (doubled or trailing slashes) and single dots are dropped
    when a path is parsed. *)
Definition keep_part (w : string) : bool :=
  negb (String.eqb w EmptyString) && negb (String.eqb w ".").

Definition starts_with_slash (s : string) : bool :=
  match s with
  | String c _ => Ascii.eqb c "/"%char
  | EmptyString => false
  end.

(** [Path(s)] *)
Definition PurePath (s : string) : Path :=
  {| absolute := starts_with_slash s;
     parts := List.filter keep_part (split_slash s) |}.

(** [str(p)] *)
Definition str (p : Path) : string :=
  if absolute p then "/" ++ String.concat "/" (parts p)
  else match parts p with
       | [] => "."
       | ws => String.concat "/" ws
       end.

(** [p.joinpath(s)]: an absolute argument replaces [p]. *)
Definition joinpath (p : Path) (s : string) : Path :=
  let q := PurePath s in
  if absolute q then q
  else {| absolute := absolute p; parts := parts p ++ parts q |}.

(** [p.parent]; the parent of an anchor is the anchor itself. *)
Definition parent (p : Path) : Path :=
  {| absolute := absolute p; parts := removelast (parts p) |}.

(** One more component below [p]. *)
Definition child (p : Path) (name : string) : Path :=
  {| absolute := absolute p; parts := parts p ++ [name] |}.

(** The components [pathlib] can hold: non-empty, not a single dot, without
    a slash. *)
Definition wf_part (w : string) : bool := keep_part w && no_slash w.
Definition wf_path (p : Path) : bool := forallb wf_part (parts p).

End Pathlib.
Export Pathlib.

(** ** The file system

    The tree maps a path, as the program passes it, to what [stat] finds
    there; the anchor (root, or the working directory for an empty relative
    path) is always a directory.  Paths are keys: a dot-dot component is a
    name like any other, and a tree in which two paths reach the same entry
    lists both.  What the tree does not show (permissions, an entry that
    [stat] does not reach, such as a symbolic link whose target is missing,
    the length of names) reaches the program through the refusals of
    [os.mkdir], which are a parameter ([os_refuses] below). *)

Inductive node : Type :=
| File (content : string)
| Dir
| Special.

Inductive exn : Type :=
| FileExistsError
| FileNotFoundError
| NotADirectoryError
| OtherError (name : string).

Inductive result (A : Type) : Type :=
| Ok (a : A)
| Err (e : exn).
Arguments Ok {A} a.
Arguments Err {A} e.

Definition entry (fs : gmap Path node) (p : Path) : option node :=
  match parts p with
  | [] => Some Dir
  | _ => fs !! p
  end.

Definition path_exists (fs : gmap Path node) (p : Path) : bool :=
  match entry fs p with Some _ => true | None => false end.

Definition is_dir (fs : gmap Path node) (p : Path) : bool :=
  match entry fs p with Some Dir => true | _ => false end.

(** Every entry lies in a directory: the shape of a real file tree. *)
Definition wf_fs (fs : gmap Path node) : Prop :=
  forall p, path_exists fs p = true -> is_dir fs (parent p) = true.

(** ** Collaborators

    The [postprocessing] module ([DataReader] and the four figure builders),
    the [savefig] method of the figures it returns and [Path.resolve] are
    not part of the script: they are parameters.  Each may read and change
    the file system and may raise.

    So is the operating system where it decides on grounds the tree does
    not show: [os_refuses fs p] is the error, if any, with which it turns
    down [os.mkdir(p)] in the tree [fs] before looking at what the tree
    holds ([PermissionError], [FileExistsError] for a path that reaches an
    existing entry through a dot-dot component or that is a symbolic link
    with no target, [OSError] for a name too long, ...). *)

Class Externals : Type := {
  reader : Type;
  figure : Type;
  resolve : gmap Path node -> Path -> Path;
  DataReader : Path -> string -> gmap Path node -> result reader * gmap Path node;
  make_figure_2 : reader -> gmap Path node -> result figure * gmap Path node;
  make_figure_3 : reader -> gmap Path node -> result figure * gmap Path node;
  make_figure_4 : reader -> gmap Path node -> result figure * gmap Path node;
  make_figure_5 : reader -> gmap Path node -> result figure * gmap Path node;
  savefig : figure -> string -> gmap Path node -> result unit * gmap Path node;
  os_refuses : gmap Path node -> Path -> option exn;
}.

(** ** Making directories *)

Section Mkdir.
Context `{Externals}.

(** [os.mkdir(p)]: a failed call changes nothing. *)
Definition os_mkdir (p : Path) (fs : gmap Path node) : result unit * gmap Path node :=
  match os_refuses fs p with
  | Some e => (Err e, fs)
  | None =>
      match entry fs p with
      | Some _ => (Err FileExistsError, fs)
      | None =>
          match entry fs (parent p) with
          | Some Dir => (Ok tt, <[p := Dir]> fs)
          | Some _ => (Err NotADirectoryError, fs)
          | None => (Err FileNotFoundError, fs)
          end
      end
  end.

(** [Path.mkdir(parents=False, exist_ok=exist_ok)]: a missing parent is
    reported as it is, any other error is forgiven only when [exist_ok] is
    set and the path is a directory. *)
Definition mkdir_single (p : Path) (exist_ok : bool) (fs : gmap Path node)
  : result unit * gmap Path node :=
  match os_mkdir p fs with
  | (Ok _, fs') => (Ok tt, fs')
  | (Err FileNotFoundError, _) => (Err FileNotFoundError, fs)
  | (Err e, _) =>
      if negb exist_ok || negb (is_dir fs p) then (Err e, fs) else (Ok tt, fs)
  end.

(** [Path.mkdir(parents=parents, exist_ok=exist_ok)], by recursion on the
    components read from the last one: on a missing parent, the parent is
    made with [parents=True, exist_ok=True] and the path itself is then made
    with [parents=False].  An error raised at that point leaves the parents
    made so far in place. *)
Fixpoint mkdir_from (a : bool) (rparts : list string) (parents exist_ok : bool)
    (fs : gmap Path node) : result unit * gmap Path node :=
  let p := mkPath a (rev rparts) in
  match os_mkdir p fs with
  | (Ok _, fs') => (Ok tt, fs')
  | (Err FileNotFoundError, _) =>
      match rparts with
      | [] => (Err FileNotFoundError, fs)
      | _ :: rparent =>
          if negb parents then (Err FileNotFoundError, fs)
          else match mkdir_from a rparent true true fs with
               | (Ok _, fs1) => mkdir_single p exist_ok fs1
               | (Err e, fs1) => (Err e, fs1)
               end
      end
  | (Err e, _) =>
      if negb exist_ok || negb (is_dir fs p) then (Err e, fs) else (Ok tt, fs)
  end.

Definition Path_mkdir (p : Path) (parents exist_ok : bool) (fs : gmap Path node)
  : result unit * gmap Path node :=
  mkdir_from (absolute p) (rev (parts p)) parents exist_ok fs.

End Mkdir.

(** ** Runs: outcome, final file system and the calls made, oldest first

    A call is recorded with the result it gave.  [SystemExit] is what
    [sys.exit()] raises: it is kept apart from the exceptions proper, since
    it ends the process quietly with its code. *)

Inductive event (reader figure : Type) : Type :=
| Ev_exists (p : Path) (found : bool)
| Ev_mkdir (p : Path) (r : result unit)
| Ev_print (s : string)
| Ev_flush
| Ev_DataReader (data_dir : Path) (data_format : string) (r : result reader)
| Ev_make_figure (n : nat) (rd : reader) (r : result figure)
| Ev_savefig (fig : figure) (fname : string) (r : result unit).
Arguments Ev_exists {reader figure} p found.
Arguments Ev_mkdir {reader figure} p r.
Arguments Ev_print {reader figure} s.
Arguments Ev_flush {reader figure}.
Arguments Ev_DataReader {reader figure} data_dir data_format r.
Arguments Ev_make_figure {reader figure} n rd r.
Arguments Ev_savefig {reader figure} fig fname r.

Inductive outcome (A : Type) : Type :=
| Returned (a : A)
| Raised (e : exn)
| SystemExit (code : option Z).
Arguments Returned {A} a.
Arguments Raised {A} e.
Arguments SystemExit {A} code.

Definition M `{Externals} (A : Type) : Type :=
  gmap Path node -> outcome A * gmap Path node * list (event reader figure).

#[global] Instance M_ret `{Externals} : MRet M :=
  fun A a fs => (Returned a, fs, []).

#[global] Instance M_bind `{Externals} : MBind M :=
  fun A B k m fs =>
    match m fs with
    | (Returned a, fs1, t1) =>
        match k a fs1 with (o, fs2, t2) => (o, fs2, t1 ++ t2) end
    | (Raised e, fs1, t1) => (Raised e, fs1, t1)
    | (SystemExit c, fs1, t1) => (SystemExit c, fs1, t1)
    end.

Definition of_result {A} (r : result A) : outcome A :=
  match r with Ok a => Returned a | Err e => Raised e end.

Section Primitives.
Context `{Externals}.

(** [p.exists()] *)
Definition exists_ (p : Path) : M bool :=
  fun fs => (Returned (path_exists fs p), fs, [Ev_exists p (path_exists fs p)]).

(** [p.mkdir(parents=parents)] *)
Definition mkdir (p : Path) (parents : bool) : M unit :=
  fun fs => match Path_mkdir p parents false fs with
            | (r, fs') => (of_result r, fs', [Ev_mkdir p r])
            end.

(** [print(s)] *)
Definition print (s : string) : M unit :=
  fun fs => (Returned tt, fs, [Ev_print s]).

(** [sys.stdout.flush()] *)
Definition flush : M unit :=
  fun fs => (Returned tt, fs, [Ev_flush]).

(** [sys.exit()] *)
Definition sys_exit {A} : M A :=
  fun fs => (SystemExit None, fs, []).

(** [p.resolve()] *)
Definition resolve_ (p : Path) : M Path :=
  fun fs => (Returned (resolve fs p), fs, []).

(** [DataReader(data_dir, data_format=fmt)] *)
Definition new_DataReader (data_dir : Path) (fmt : string) : M reader :=
  fun fs => match DataReader data_dir fmt fs with
            | (r, fs') => (of_result r, fs', [Ev_DataReader data_dir fmt r])
            end.

Definition builder (n : nat) : reader -> gmap Path node -> result figure * gmap Path node :=
  match n with
  | 2 => make_figure_2
  | 3 => make_figure_3
  | 4 => make_figure_4
  | _ => make_figure_5
  end.

(** [make_figure_n(rd)] *)
Definition call_make_figure (n : nat) (rd : reader) : M figure :=
  fun fs => match builder n rd fs with
            | (r, fs') => (of_result r, fs', [Ev_make_figure n rd r])
            end.

(** [fig.savefig(fname)] *)
Definition call_savefig (fig : figure) (fname : string) : M unit :=
  fun fs => match savefig fig fname fs with
            | (r, fs') => (of_result r, fs', [Ev_savefig fig fname r])
            end.

(** [[f(x) for x in l]] *)
Fixpoint comprehension {A B} (f : A -> M B) (l : list A) : M (list B) :=
  match l with
  | [] => mret []
  | x :: l' => y ← f x; ys ← comprehension f l'; mret (y :: ys)
  end.
End Primitives.

(** [all(l)] *)
Definition all (l : list bool) : bool := forallb id l.

(** What [str.format] shows for a list of strings. *)
Definition repr_str (s : string) : string := "'" ++ s ++ "'".
Definition repr_list (l : list string) : string :=
  "[" ++ String.concat ", " (map repr_str l) ++ "]".

Definition nl : string := String "010"%char EmptyString.

(** ** The script *)

Definition filenames : list string :=
  ["dynamic_txyz.txt"; "mxs.npy"; "mys.npy"; "mzs.npy"].

(** The message of [check_input_data_exists], after [format]. *)
Definition not_found_message (data_dir : Path) (filenames : list string) : string :=
  "Could not find input data in the following directory:" ++ nl ++ nl
  ++ "   " ++ str data_dir ++ "." ++ nl ++ nl
  ++ "Please make sure this directory exists and contains the following" ++ nl
  ++ "files: " ++ repr_list filenames ++ nl ++ nl
  ++ "You can use '--data-dir' to specify a different input data directory" ++ nl
  ++ "(run 'python reproduce_figures.py --help' for details)." ++ nl.

Definition using_message : string :=
  "Using the following data and output directories " ++ nl
  ++ "(run 'python reproduce_figures.py --help' to see " ++ nl
  ++ "how you can change these)." ++ nl.

(** The two [click] options' defaults, [here] being the directory of the
    script. *)
Definition default_data_dir (here : Path) : string :=
  str (joinpath here "../micromagnetic_simulation_data/generated_data/oommf/").
Definition default_output_dir (here : Path) : string :=
  str (joinpath here "../figures/generated_plots/").

Section Script.
Context `{Externals}.

Definition check_input_data_exists (data_dir : Path) : M unit :=
  found ← comprehension (fun fname => exists_ (joinpath data_dir fname)) filenames;
  if negb (all found) then
    print (not_found_message data_dir filenames);;
    sys_exit
  else mret tt.

(** The two lines under the comment "Create output directory if it does
    not exists". *)
Definition prepare_output_dir (output_dir : Path) : M unit :=
  there ← exists_ output_dir;
  if negb there then mkdir output_dir true else mret tt.

Definition reproduce_figures (data_dir output_dir : string) : M unit :=
  let data_dir := PurePath data_dir in
  let output_dir := PurePath output_dir in
  check_input_data_exists data_dir;;
  prepare_output_dir output_dir;;
  print using_message;;
  data_abs ← resolve_ data_dir;
  print ("Input data directory:" ++ nl ++ "   " ++ str data_abs ++ nl);;
  output_abs ← resolve_ output_dir;
  print ("Output directory:" ++ nl ++ "   " ++ str output_abs ++ nl);;
  data_reader ← new_DataReader data_dir "OOMMF";
  print "Generating plots...";;
  flush;;
  fig2 ← call_make_figure 2 data_reader;
  fig3 ← call_make_figure 3 data_reader;
  fig4 ← call_make_figure 4 data_reader;
  fig5 ← call_make_figure 5 data_reader;
  call_savefig fig2 (str (joinpath output_dir "figure_2.png"));;
  call_savefig fig3 (str (joinpath output_dir "figure_3.png"));;
  call_savefig fig4 (str (joinpath output_dir "figure_4.png"));;
  call_savefig fig5 (str (joinpath output_dir "figure_5.png"));;
  print "Done.";;
  print "Plots have been successfully generated in output directory.".

(** [python reproduce_figures.py [--data-dir d] [--output-dir o]] *)
Definition main (here : Path) (data_dir output_dir : option string) : M unit :=
  reproduce_figures (default (default_data_dir here) data_dir)
                    (default (default_output_dir here) output_dir).

(** What reached standard output. *)
Definition stdout (t : list (event reader figure)) : list string :=
  omap (fun ev => match ev with Ev_print s => Some s | _ => None end) t.

(** The existence tests of the validator, one per required file. *)
Definition probes (fs : gmap Path node) (data_dir : Path) : list (event reader figure) :=
  map (fun fname => Ev_exists (joinpath data_dir fname)
                              (path_exists fs (joinpath data_dir fname)))
      filenames.

(** The calls of a run that goes through, from the first message on:
    [data_abs] and [output_abs] are the resolved directories, [rd] the
    reader and [fig2] to [fig5] the figures the builders returned. *)
Definition generation_events (data_dir output_dir data_abs output_abs : Path)
    (rd : reader) (fig2 fig3 fig4 fig5 : figure) : list (event reader figure) :=
  [ Ev_print using_message;
    Ev_print ("Input data directory:" ++ nl ++ "   " ++ str data_abs ++ nl);
    Ev_print ("Output directory:" ++ nl ++ "   " ++ str output_abs ++ nl);
    Ev_DataReader data_dir "OOMMF" (Ok rd);
    Ev_print "Generating plots...";
    Ev_flush;
    Ev_make_figure 2 rd (Ok fig2);
    Ev_make_figure 3 rd (Ok fig3);
    Ev_make_figure 4 rd (Ok fig4);
    Ev_make_figure 5 rd (Ok fig5);
    Ev_savefig fig2 (str (joinpath output_dir "figure_2.png")) (Ok tt);
    Ev_savefig fig3 (str (joinpath output_dir "figure_3.png")) (Ok tt);
    Ev_savefig fig4 (str (joinpath output_dir "figure_4.png")) (Ok tt);
    Ev_savefig fig5 (str (joinpath output_dir "figure_5.png")) (Ok tt);
    Ev_print "Done.";
    Ev_print "Plots have been successfully generated in output directory." ].

(** The exception a collaborator call of steps 5 to 7 ended with, if any. *)
Definition raised_by (ev : event reader figure) : option exn :=
  match ev with
  | Ev_DataReader _ _ (Err e) => Some e
  | Ev_make_figure _ _ (Err e) => Some e
  | Ev_savefig _ _ (Err e) => Some e
  | _ => None
  end.

(** Calls that create a directory or load data. *)
Definition creates_or_loads (ev : event reader figure) : bool :=
  match ev with
  | Ev_mkdir _ _ | Ev_DataReader _ _ _ | Ev_make_figure _ _ _ | Ev_savefig _ _ _ => true
  | _ => false
  end.
End Script.

Arguments probes : simpl never.

(** The status the process ends with: an uncaught exception ends it with
    status 1, [sys.exit()] without argument with status 0. *)
Definition exit_status {A} (o : outcome A) : Z :=
  match o with
  | Returned _ => 0
  | SystemExit None => 0
  | SystemExit (Some n) => n
  | Raised _ => 1
  end.

(** ** Vocabulary of the statements *)

(** [needle] occurs in [hay]. *)
Fixpoint contains (needle hay : string) : bool :=
  String.prefix needle hay
  || match hay with
     | EmptyString => false
     | String _ hay' => contains needle hay'
     end.

Definition mentions (msg s : string) : Prop :=
  exists pre post, msg = (pre ++ s ++ post)%string.

(** The required files that are absent from [data_dir]: the list the
    specification calls the missing-file list, to compare with the list the
    message shows. *)
Definition spec_missing_files (fs : gmap Path node) (data_dir : Path) : list string :=
  List.filter (fun fname => negb (path_exists fs (joinpath data_dir fname))) filenames.

(** [q] is [p] or lies above it. *)
Definition above (q p : Path) : Prop :=
  absolute q = absolute p /\ parts q `prefix_of` parts p.

(** The four files the script saves. *)
Definition figure_files (output_dir : Path) : list Path :=
  map (child output_dir) ["figure_2.png"; "figure_3.png"; "figure_4.png"; "figure_5.png"].

(** Entries of any kind under the four required names. *)
Definition install (kind : string -> node) (data_dir : Path) (fs : gmap Path node)
  : gmap Path node :=
  foldr (fun fname m => <[joinpath data_dir fname := kind fname]> m) fs filenames.

(** ** A concrete instance of the collaborators and some file trees *)

Module Sample.

Definition render (fig : nat) : string :=
  "image " ++ String (ascii_of_nat (48 + fig)) EmptyString.

Definition save_image (fig : nat) (fname : string) (fs : gmap Path node)
  : result unit * gmap Path node :=
  let p := PurePath fname in
  if is_dir fs (parent p) then
    match entry fs p with
    | Some Dir => (Err (OtherError "IsADirectoryError"), fs)
    | _ => (Ok tt, <[p := File (render fig)]> fs)
    end
  else (Err FileNotFoundError, fs).

Definition open_reader (d : Path) (fmt : string) (fs : gmap Path node)
  : result Path * gmap Path node :=
  if negb (String.eqb fmt "OOMMF") then (Err (OtherError "ValueError"), fs)
  else match entry fs (child d "dynamic_txyz.txt") with
       | Some (File _) => (Ok d, fs)
       | Some _ => (Err (OtherError "IsADirectoryError"), fs)
       | None => (Err FileNotFoundError, fs)
       end.

Definition externals : Externals := {|
  reader := Path;
  figure := nat;
  resolve := fun _ p => p;
  DataReader := open_reader;
  make_figure_2 := fun _ fs => (Ok 2, fs);
  make_figure_3 := fun _ fs => (Ok 3, fs);
  make_figure_4 := fun _ fs => (Ok 4, fs);
  make_figure_5 := fun _ fs => (Ok 5, fs);
  savefig := save_image;
  os_refuses := fun _ _ => None;
|}.

Definition data : Path := mkPath true ["data"].
Definition out : Path := mkPath true ["out"].

Definition content (fname : string) : node := File ("samples of " ++ fname).

(** [/data] with the four required files. *)
Definition fs_full : gmap Path node := install content data (<[data := Dir]> ∅).

(** The same without [mzs.npy]. *)
Definition fs_no_mzs : gmap Path node := delete (child data "mzs.npy") fs_full.

(** The four names are there, as directories. *)
Definition fs_dirs : gmap Path node := install (fun _ => Dir) data (<[data := Dir]> ∅).

(** [/out] exists and holds an unrelated file. *)
Definition notes : Path := child out "notes.txt".
Definition fs_out : gmap Path node :=
  <[notes := File "keep me"]> (<[out := Dir]> fs_full).

(** [/out] is a regular file. *)
Definition fs_out_file : gmap Path node := <[out := File "not a directory"]> ∅.

End Sample.

(** ** More vocabulary and one more file tree *)

Section Calls.
Context `{Externals}.

Definition is_savefig (ev : event reader figure) : bool :=
  match ev with Ev_savefig _ _ _ => true | _ => false end.

Definition is_DataReader (ev : event reader figure) : bool :=
  match ev with Ev_DataReader _ _ _ => true | _ => false end.

(** The file name a [savefig] call was given. *)
Definition savefig_name (ev : event reader figure) : option string :=
  match ev with Ev_savefig _ fname _ => Some fname | _ => None end.

(** A [savefig] that returned, with the file it left in [fs]. *)
Definition saved_in (render : figure -> string) (fs : gmap Path node)
    (ev : event reader figure) : Prop :=
  exists fig fname,
    ev = Ev_savefig fig fname (Ok tt)
    /\ fs !! PurePath fname = Some (File (render fig)).
End Calls.

Module Blocked.

(** [/out] exists, and [figure_4.png] in it is a directory. *)
Definition fs_blocked : gmap Path node :=
  <[child Sample.out "figure_4.png" := Dir]> Sample.fs_out.

End Blocked.

(** ** Symbolic links

    What [lstat] finds at each path: an entry proper, or a symbolic link
    with the text it holds.  [stat], which [Path.exists] relies on, follows
    the link at the path it is given, up to [max_links] times; a link whose
    target is missing, or a chain of links that does not end, gives
    nothing.  Paths are keys here as well: the link followed is the one at
    the path itself.  The tree the script sees through [stat] is [seen]. *)

Module Links.

Inductive lnode : Type :=
| Plain (n : node)
| Link (target : string).

(** The path a link at [p] leads to: its text, read from the directory the
    link is in. *)
Definition link_target (p : Path) (target : string) : Path :=
  joinpath (parent p) target.

Definition max_links : nat := 40.

Fixpoint stat (fuel : nat) (l : gmap Path lnode) (p : Path) : option node :=
  match parts p with
  | [] => Some Dir
  | _ =>
      match l !! p with
      | None => None
      | Some (Plain n) => Some n
      | Some (Link target) =>
          match fuel with
          | 0 => None
          | S fuel' => stat fuel' l (link_target p target)
          end
      end
  end.

(** [os.path.lexists(p)]: there is an entry at [p], link or not. *)
Definition lexists (l : gmap Path lnode) (p : Path) : bool :=
  match parts p with
  | [] => true
  | _ => match l !! p with Some _ => true | None => false end
  end.

Definition seen (l : gmap Path lnode) : gmap Path node :=
  map_imap (fun p _ => stat max_links l p) l.

(** What [os.mkdir(p)] is refused for, beyond what the tree seen shows: a
    link is in the way, or the path ends in a dot-dot component below a
    directory, and so reaches a directory that exists. *)
Definition refuses (l : gmap Path lnode) (fs : gmap Path node) (p : Path) : option exn :=
  match l !! p with
  | Some (Link _) => Some FileExistsError
  | _ =>
      match last (parts p) with
      | Some w =>
          if String.eqb w ".." && is_dir fs (parent p) then Some FileExistsError
          else None
      | None => None
      end
  end.

(** The sample collaborators, on an operating system with the links of [l]. *)
Definition externals (l : gmap Path lnode) : Externals := {|
  reader := Path;
  figure := nat;
  resolve := fun _ p => p;
  DataReader := Sample.open_reader;
  make_figure_2 := fun _ fs => (Ok 2, fs);
  make_figure_3 := fun _ fs => (Ok 3, fs);
  make_figure_4 := fun _ fs => (Ok 4, fs);
  make_figure_5 := fun _ fs => (Ok 5, fs);
  savefig := Sample.save_image;
  os_refuses := refuses l;
|}.

(** The sample data directory, with [mxs.npy] a link. *)
Definition fs_link (target : string) : gmap Path lnode :=
  <[child Sample.data "mxs.npy" := Link target]> (Plain <$> Sample.fs_full).

(** The link leads to a file that is not there. *)
Definition fs_dangling : gmap Path lnode := fs_link "gone.npy".

(** The link leads to [mys.npy], beside it. *)
Definition fs_linked : gmap Path lnode := fs_link "mys.npy".

(** [/out] is a link to a directory that is not there. *)
Definition fs_out_dangling : gmap Path lnode := <[Sample.out := Link "plots"]> ∅.

(** The same link, beside the sample data directory. *)
Definition fs_full_out_dangling : gmap Path lnode :=
  <[Sample.out := Link "plots"]> (Plain <$> Sample.fs_full).

End Links.

(** * The model at work *)

Example PurePath_trailing_slash :
  PurePath "../figures/generated_plots/"
  = mkPath false [".."; "figures"; "generated_plots"].
Proof. reflexivity. Qed.

Example PurePath_dots_and_slashes :
  PurePath "/data/./raw//oommf" = mkPath true ["data"; "raw"; "oommf"].
Proof. reflexivity. Qed.

Example str_joinpath :
  str (joinpath (mkPath true ["home"; "repo"; "src"]) "../figures/generated_plots/")
  = "/home/repo/src/../figures/generated_plots".
Proof. reflexivity. Qed.

Example joinpath_absolute :
  joinpath (mkPath true ["home"]) "/tmp/x" = mkPath true ["tmp"; "x"].
Proof. reflexivity. Qed.

Example repr_list_filenames :
  repr_list filenames = "['dynamic_txyz.txt', 'mxs.npy', 'mys.npy', 'mzs.npy']".
Proof. reflexivity. Qed.

(** The calls of a run on a complete data directory, the output directory
    being absent. *)
Example sample_run_calls :
  snd (@reproduce_figures Sample.externals "/data" "/out/plots" Sample.fs_full)
  = [ Ev_exists (mkPath true ["data"; "dynamic_txyz.txt"]) true;
      Ev_exists (mkPath true ["data"; "mxs.npy"]) true;
      Ev_exists (mkPath true ["data"; "mys.npy"]) true;
      Ev_exists (mkPath true ["data"; "mzs.npy"]) true;
      Ev_exists (mkPath true ["out"; "plots"]) false;
      Ev_mkdir (mkPath true ["out"; "plots"]) (Ok tt);
      Ev_print using_message;
      Ev_print ("Input data directory:" ++ nl ++ "   /data" ++ nl);
      Ev_print ("Output directory:" ++ nl ++ "   /out/plots" ++ nl);
      Ev_DataReader (mkPath true ["data"]) "OOMMF" (Ok (mkPath true ["data"]));
      Ev_print "Generating plots...";
      Ev_flush;
      Ev_make_figure 2 (mkPath true ["data"]) (Ok 2);
      Ev_make_figure 3 (mkPath true ["data"]) (Ok 3);
      Ev_make_figure 4 (mkPath true ["data"]) (Ok 4);
      Ev_make_figure 5 (mkPath true ["data"]) (Ok 5);
      Ev_savefig 2 "/out/plots/figure_2.png" (Ok tt);
      Ev_savefig 3 "/out/plots/figure_3.png" (Ok tt);
      Ev_savefig 4 "/out/plots/figure_4.png" (Ok tt);
      Ev_savefig 5 "/out/plots/figure_5.png" (Ok tt);
      Ev_print "Done.";
      Ev_print "Plots have been successfully generated in output directory." ].
Proof. vm_compute. reflexivity. Qed.

(** What that run leaves in the file system. *)
Example sample_run_files :
  let fs' := snd (fst (@reproduce_figures Sample.externals "/data" "/out/plots"
                         Sample.fs_full)) in
  fs' !! mkPath true ["out"] = Some Dir
  /\ fs' !! mkPath true ["out"; "plots"] = Some Dir
  /\ fs' !! mkPath true ["out"; "plots"; "figure_3.png"] = Some (File "image 3")
  /\ fs' !! mkPath true ["data"; "mxs.npy"] = Some (File "samples of mxs.npy").
Proof. repeat split; vm_compute; reflexivity. Qed.

(** A run on a data directory without [mzs.npy]. *)
Example rejected_run_calls :
  fst (fst (@reproduce_figures Sample.externals "/data" "/out/plots" Sample.fs_no_mzs))
  = SystemExit None
  /\ snd (@reproduce_figures Sample.externals "/data" "/out/plots" Sample.fs_no_mzs)
     = [ Ev_exists (mkPath true ["data"; "dynamic_txyz.txt"]) true;
         Ev_exists (mkPath true ["data"; "mxs.npy"]) true;
         Ev_exists (mkPath true ["data"; "mys.npy"]) true;
         Ev_exists (mkPath true ["data"; "mzs.npy"]) false;
         Ev_print (not_found_message (mkPath true ["data"]) filenames) ]
  /\ snd (fst (@reproduce_figures Sample.externals "/data" "/out/plots"
                 Sample.fs_no_mzs)) !! mkPath true ["out"; "plots"] = None.
Proof. repeat split; vm_compute; reflexivity. Qed.

(** [mkdir(parents=True)] below a regular file. *)
Example mkdir_below_a_file :
  fst (@Path_mkdir Sample.externals (mkPath true ["out"; "plots"; "new"]) true false
         Sample.fs_out_file)
  = Err NotADirectoryError.
Proof. vm_compute. reflexivity. Qed.

(** [exists()] follows links: to a file, to nothing, round in a circle. *)
Example stat_follows_links :
  path_exists (Links.seen Links.fs_linked) (child Sample.data "mxs.npy") = true
  /\ path_exists (Links.seen Links.fs_dangling) (child Sample.data "mxs.npy") = false
  /\ path_exists (Links.seen (Links.fs_link "mxs.npy")) (child Sample.data "mxs.npy")
     = false.
Proof. repeat split; vm_compute; reflexivity. Qed.

(** The output directory is a link to nothing: [exists()] says no, and
    [mkdir] raises [FileExistsError]. *)
Example mkdir_on_a_dangling_link :
  Links.lexists Links.fs_out_dangling Sample.out = true
  /\ path_exists (Links.seen Links.fs_out_dangling) Sample.out = false
  /\ fst (fst (@prepare_output_dir (Links.externals Links.fs_out_dangling) Sample.out
                 (Links.seen Links.fs_out_dangling)))
     = Raised FileExistsError.
Proof. repeat split; vm_compute; reflexivity. Qed.

(** The output directory is [nx/..] and [nx] is not there: [exists()] says
    no, [mkdir(parents=True)] makes [nx] and then raises [FileExistsError]. *)
Example mkdir_through_dot_dot :
  let run := @prepare_output_dir (Links.externals ∅) (PurePath "nx/..") ∅ in
  snd run = [Ev_exists (PurePath "nx/..") false;
             Ev_mkdir (PurePath "nx/..") (Err FileExistsError)]
  /\ fst (fst run) = Raised FileExistsError
  /\ snd (fst run) !! PurePath "nx" = Some Dir.
Proof. repeat split; vm_compute; reflexivity. Qed.

(** * Facts about paths *)

Lemma split_slash_no_slash (w : string) :
  no_slash w = true -> split_slash w = [w].
Proof.
  induction w as [|c w IH]; simpl; [reflexivity|].
  destruct (Ascii.eqb c "/"); simpl; [discriminate|].
  intros Hw. now rewrite IH.
Qed.

Lemma split_slash_app (w s : string) :
  no_slash w = true ->
  split_slash (w ++ String "/" s) = w :: split_slash s.
Proof.
  induction w as [|c w IH]; simpl; [reflexivity|].
  destruct (Ascii.eqb c "/"); simpl; [discriminate|].
  intros Hw. now rewrite IH.
Qed.

Lemma split_slash_concat (w : string) (ws : list string) :
  Forall (fun x => no_slash x = true) (w :: ws) ->
  split_slash (String.concat "/" (w :: ws)) = w :: ws.
Proof.
  revert w. induction ws as [|w' ws IH]; intros w Hall.
  - simpl. apply split_slash_no_slash. now inversion Hall.
  - inversion Hall as [|? ? Hw Hrest]; subst.
    change (String.concat "/" (w :: w' :: ws))
      with (w ++ String "/" (String.concat "/" (w' :: ws)))%string.
    rewrite split_slash_app by assumption. now rewrite IH.
Qed.

Lemma split_slash_pieces (s : string) :
  Forall (fun x => no_slash x = true) (split_slash s).
Proof.
  induction s as [|c s IH]; simpl; [now repeat constructor|].
  destruct (Ascii.eqb c "/") eqn:Hc; [now constructor|].
  destruct (split_slash s) as [|w ws]; [now repeat constructor; simpl; rewrite Hc|].
  inversion IH; subst. constructor; [simpl; now rewrite Hc|assumption].
Qed.

Lemma wf_part_no_slash (ws : list string) :
  forallb wf_part ws = true -> Forall (fun x => no_slash x = true) ws.
Proof.
  rewrite forallb_forall, List.Forall_forall. intros Hall x Hx.
  specialize (Hall x Hx). unfold wf_part in Hall.
  now apply andb_true_iff in Hall.
Qed.

Lemma filter_keep_wf (ws : list string) :
  forallb wf_part ws = true -> List.filter keep_part ws = ws.
Proof.
  induction ws as [|w ws IH]; simpl; [reflexivity|].
  intros Hall. apply andb_true_iff in Hall as [Hw Hws].
  unfold wf_part in Hw. apply andb_true_iff in Hw as [-> _].
  now rewrite IH.
Qed.

Lemma wf_part_starts (w : string) (rest : string) :
  wf_part w = true -> starts_with_slash (w ++ rest) = false.
Proof.
  destruct w as [|c w]; [discriminate|].
  unfold wf_part. simpl. intros Hw.
  apply andb_true_iff in Hw as [_ Hw]. apply andb_true_iff in Hw as [Hc _].
  now destruct (Ascii.eqb c "/").
Qed.

Lemma append_empty (w : string) : String.append w EmptyString = w.
Proof.
  induction w as [|c w IH]; [reflexivity|].
  change (String c (String.append w EmptyString) = String c w). now f_equal.
Qed.

Lemma append_assoc (a b c : string) :
  String.append (String.append a b) c = String.append a (String.append b c).
Proof.
  induction a as [|x a IH]; [reflexivity|].
  change (String x (String.append (String.append a b) c)
          = String x (String.append a (String.append b c))).
  now f_equal.
Qed.

Lemma starts_concat (w : string) (ws : list string) :
  wf_part w = true -> starts_with_slash (String.concat "/" (w :: ws)) = false.
Proof.
  intros Hw. destruct ws as [|w' ws].
  - simpl. rewrite <- (wf_part_starts w EmptyString Hw).
    now rewrite append_empty.
  - change (String.concat "/" (w :: w' :: ws))
      with (w ++ String "/" (String.concat "/" (w' :: ws)))%string.
    now apply wf_part_starts.
Qed.

(** Parsing what [str] shows gives the path back. *)
Lemma PurePath_str (p : Path) : wf_path p = true -> PurePath (str p) = p.
Proof.
  destruct p as [a ws]. unfold wf_path. cbn [parts]. intros Hwf.
  destruct a, ws as [|w ws]; try reflexivity.
  - set (s := String.concat "/" (w :: ws)).
    change (str (mkPath true (w :: ws))) with (String "/" s).
    unfold PurePath.
    change (split_slash (String "/" s)) with (EmptyString :: split_slash s).
    change (List.filter keep_part (EmptyString :: split_slash s))
      with (List.filter keep_part (split_slash s)).
    unfold s. rewrite split_slash_concat by now apply wf_part_no_slash.
    now rewrite filter_keep_wf.
  - change (str (mkPath false (w :: ws))) with (String.concat "/" (w :: ws)).
    unfold PurePath.
    rewrite split_slash_concat by now apply wf_part_no_slash.
    rewrite filter_keep_wf by assumption.
    rewrite starts_concat; [reflexivity|].
    simpl in Hwf. now apply andb_true_iff in Hwf.
Qed.

(** Every parsed path is one [pathlib] can hold. *)
Lemma wf_PurePath (s : string) : wf_path (PurePath s) = true.
Proof.
  unfold wf_path, PurePath. simpl. apply forallb_forall. intros w Hw.
  apply filter_In in Hw as [Hin Hkeep]. unfold wf_part. rewrite Hkeep. simpl.
  pose proof (split_slash_pieces s) as Hall.
  rewrite List.Forall_forall in Hall. now apply Hall.
Qed.

Lemma wf_path_app (a b : bool) (ws vs : list string) :
  wf_path (mkPath a ws) = true -> wf_path (mkPath b vs) = true ->
  wf_path (mkPath a (ws ++ vs)) = true.
Proof.
  unfold wf_path. simpl. intros Hws Hvs. rewrite forallb_app. now rewrite Hws, Hvs.
Qed.

Lemma wf_joinpath (p : Path) (s : string) :
  wf_path p = true -> wf_path (joinpath p s) = true.
Proof.
  intros Hp. unfold joinpath. pose proof (wf_PurePath s) as Hs.
  destruct (absolute (PurePath s)); [assumption|].
  destruct p as [a ws]. destruct (PurePath s) as [b vs]. simpl.
  now apply wf_path_app with (b := b).
Qed.

Lemma joinpath_name (p : Path) (name : string) :
  wf_part name = true -> joinpath p name = child p name.
Proof.
  intros Hn. unfold joinpath, child, PurePath. simpl.
  assert (Hs : starts_with_slash name = false).
  { rewrite <- (wf_part_starts name EmptyString Hn). now rewrite append_empty. }
  rewrite Hs. f_equal.
  assert (Hno : no_slash name = true) by (unfold wf_part in Hn; now apply andb_true_iff in Hn).
  rewrite split_slash_no_slash by assumption. simpl.
  unfold wf_part in Hn. apply andb_true_iff in Hn as [-> _]. reflexivity.
Qed.

(** The file name handed to [savefig] names the file [name] of [p]. *)
Lemma PurePath_str_joinpath (s name : string) :
  wf_part name = true ->
  PurePath (str (joinpath (PurePath s) name)) = child (PurePath s) name.
Proof.
  intros Hn. rewrite PurePath_str by (apply wf_joinpath, wf_PurePath).
  now apply joinpath_name.
Qed.

Lemma parent_child (p : Path) (name : string) : parent (child p name) = p.
Proof.
  destruct p as [a ws]. unfold parent, child. simpl. now rewrite removelast_last.
Qed.

Lemma child_inj (p : Path) (n m : string) : child p n = child p m -> n = m.
Proof.
  unfold child. intros Heq. injection Heq as Heq.
  apply app_inv_head in Heq. congruence.
Qed.


(** * The validator *)

Section Validator.
Context `{Externals}.

(** What the validator does, in one equation: four existence tests, then a
    message and an exit when one of them failed. *)
Lemma check_input_data_exists_run (fs : gmap Path node) (d : Path) :
  check_input_data_exists d fs =
  if all (map (fun fname => path_exists fs (joinpath d fname)) filenames)
  then (Returned tt, fs, probes fs d)
  else (SystemExit None, fs,
        probes fs d ++ [Ev_print (not_found_message d filenames)]).
Proof.
  cbv [check_input_data_exists probes filenames all comprehension map
       mbind M_bind mret M_ret exists_ print sys_exit forallb id app].
  destruct (path_exists fs (joinpath d "dynamic_txyz.txt")),
           (path_exists fs (joinpath d "mxs.npy")),
           (path_exists fs (joinpath d "mys.npy")),
           (path_exists fs (joinpath d "mzs.npy")); reflexivity.
Qed.

Lemma all_true_iff (l : list bool) : all l = true <-> forall b, In b l -> b = true.
Proof. unfold all. rewrite forallb_forall. reflexivity. Qed.

Lemma all_exists_iff (fs : gmap Path node) (d : Path) :
  all (map (fun fname => path_exists fs (joinpath d fname)) filenames) = true
  <-> forall fname, In fname filenames -> path_exists fs (joinpath d fname) = true.
Proof.
  rewrite all_true_iff. split.
  - intros Hall f Hf. apply Hall. now apply (in_map (fun fname => path_exists fs (joinpath d fname))).
  - intros Hall b Hb. apply in_map_iff in Hb as (f & <- & Hf). now apply Hall.
Qed.

End Validator.

(** * Occurrences in a message *)

Lemma prefix_append (s post : string) : String.prefix s (s ++ post) = true.
Proof.
  induction s as [|c s IH]; [now destruct post|].
  change ((if ascii_dec c c then String.prefix s (s ++ post) else false) = true).
  destruct (ascii_dec c c); [exact IH|congruence].
Qed.

Lemma prefix_inv (s h : string) :
  String.prefix s h = true -> exists post, h = (s ++ post)%string.
Proof.
  revert h. induction s as [|c s IH]; intros h Hp.
  - now exists h.
  - destruct h as [|c' h]; [discriminate|]. cbn in Hp.
    destruct (ascii_dec c c') as [<-|]; [|discriminate].
    destruct (IH h Hp) as [post ->]. now exists post.
Qed.

Lemma contains_mentions (s h : string) : contains s h = true <-> mentions h s.
Proof.
  split.
  - induction h as [|c h IH]; cbn [contains]; intros Hc;
      apply orb_true_iff in Hc as [Hp|Hc]; try discriminate.
    + apply prefix_inv in Hp as [post ->]. now exists EmptyString, post.
    + apply prefix_inv in Hp as [post ->]. now exists EmptyString, post.
    + destruct (IH Hc) as (pre & post & ->). now exists (String c pre), post.
  - intros (pre & post & ->). induction pre as [|c pre IH].
    + change (contains s (s ++ post) = true).
      pose proof (prefix_append s post) as Hp.
      destruct (s ++ post)%string; cbn [contains]; now rewrite Hp.
    + change (contains s (String c (pre ++ s ++ post)) = true).
      cbn [contains]. rewrite IH. apply orb_true_r.
Qed.

Section Rejection.
Context `{Externals}.

Lemma bind_run {A B} (m : M A) (k : A -> M B) (fs : gmap Path node) :
  (m ≫= k) fs =
  match m fs with
  | (Returned a, fs1, t1) => match k a fs1 with (o, fs2, t2) => (o, fs2, t1 ++ t2) end
  | (Raised e, fs1, t1) => (Raised e, fs1, t1)
  | (SystemExit c, fs1, t1) => (SystemExit c, fs1, t1)
  end.
Proof. reflexivity. Qed.

Lemma some_missing (fs : gmap Path node) (d : Path) :
  (exists fname, In fname filenames /\ path_exists fs (joinpath d fname) = false) ->
  all (map (fun fname => path_exists fs (joinpath d fname)) filenames) = false.
Proof.
  intros (f & Hf & Hmiss). apply not_true_is_false. intros Hall.
  rewrite all_exists_iff in Hall. rewrite (Hall f Hf) in Hmiss. discriminate.
Qed.

(** A run on a rejected directory: the four tests, the message, the exit. *)
Lemma reproduce_figures_rejected (fs : gmap Path node) (d o : string) :
  (exists fname, In fname filenames
                 /\ path_exists fs (joinpath (PurePath d) fname) = false) ->
  reproduce_figures d o fs
  = (SystemExit None, fs,
     probes fs (PurePath d) ++ [Ev_print (not_found_message (PurePath d) filenames)]).
Proof.
  intros Hmiss. unfold reproduce_figures. cbv zeta. rewrite bind_run.
  rewrite check_input_data_exists_run, (some_missing _ _ Hmiss). reflexivity.
Qed.

Lemma not_found_message_mentions (d : Path) :
  mentions (not_found_message d filenames) (str d)
  /\ mentions (not_found_message d filenames)
              "['dynamic_txyz.txt', 'mxs.npy', 'mys.npy', 'mzs.npy']"
  /\ mentions (not_found_message d filenames) "'--data-dir'".
Proof.
  split; [|split].
  - exists ("Could not find input data in the following directory:" ++ nl ++ nl ++ "   ")%string.
    eexists. reflexivity.
  - exists ("Could not find input data in the following directory:" ++ nl ++ nl
            ++ "   " ++ str d ++ "." ++ nl ++ nl
            ++ "Please make sure this directory exists and contains the following" ++ nl
            ++ "files: ")%string.
    eexists. unfold not_found_message.
    repeat rewrite append_assoc. reflexivity.
  - exists ("Could not find input data in the following directory:" ++ nl ++ nl
            ++ "   " ++ str d ++ "." ++ nl ++ nl
            ++ "Please make sure this directory exists and contains the following" ++ nl
            ++ "files: " ++ repr_list filenames ++ nl ++ nl ++ "You can use ")%string.
    eexists. unfold not_found_message.
    repeat rewrite append_assoc. reflexivity.
Qed.

End Rejection.

(** * Making directories *)

Lemma entry_None (fs : gmap Path node) (p : Path) :
  entry fs p = None -> parts p <> [] /\ fs !! p = None.
Proof. unfold entry. destruct (parts p); [discriminate|]. now split. Qed.

Lemma entry_insert (fs : gmap Path node) (p q : Path) (n : node) :
  parts p <> [] ->
  entry (<[p := n]> fs) q = if decide (p = q) then Some n else entry fs q.
Proof.
  intros Hp. unfold entry. destruct (decide (p = q)) as [<-|Hne].
  - destruct (parts p); [congruence|]. apply lookup_insert_eq.
  - destruct (parts q); [reflexivity|]. now apply lookup_insert_ne.
Qed.



Lemma above_refl (p : Path) : above p p.
Proof. now split. Qed.

Lemma above_parent (q : Path) (a : bool) (c : string) (rp : list string) :
  above q (mkPath a (rev rp)) -> above q (mkPath a (rev (c :: rp))).
Proof. intros [Ha Hp]. split; [exact Ha|]. simpl. now apply prefix_app_r. Qed.



Section MkdirFacts.
Context `{Externals}.

(** [os.mkdir] either adds one directory below a directory, or fails and
    changes nothing. *)
Lemma os_mkdir_cases (p : Path) (fs : gmap Path node) :
  (os_refuses fs p = None /\ entry fs p = None /\ is_dir fs (parent p) = true
   /\ os_mkdir p fs = (Ok tt, <[p := Dir]> fs))
  \/ (exists e, os_mkdir p fs = (Err e, fs)).
Proof.
  unfold os_mkdir, is_dir. destruct (os_refuses fs p) as [e|].
  { right. now exists e. }
  destruct (entry fs p) eqn:Hp.
  - right. now exists FileExistsError.
  - destruct (entry fs (parent p)) as [[]|].
    + right. now exists NotADirectoryError.
    + now left.
    + right. now exists NotADirectoryError.
    + right. now exists FileNotFoundError.
Qed.


Lemma mkdir_single_cases (p : Path) (exist_ok : bool) (fs : gmap Path node) :
  (entry fs p = None /\ is_dir fs (parent p) = true
   /\ mkdir_single p exist_ok fs = (Ok tt, <[p := Dir]> fs))
  \/ (exist_ok = true /\ is_dir fs p = true /\ mkdir_single p exist_ok fs = (Ok tt, fs))
  \/ (exists e, mkdir_single p exist_ok fs = (Err e, fs)).
Proof.
  unfold mkdir_single.
  destruct (os_mkdir_cases p fs) as [(_ & Hp & Hd & ->)|(e & ->)]; [now left|].
  right. destruct e; try (right; eexists; reflexivity);
    destruct exist_ok, (is_dir fs p) eqn:Hd; cbn;
    try (right; eexists; reflexivity); now left.
Qed.

(** How [mkdir] changes the file system, whatever its result: it only adds
    directories, at the path or above it. *)
Lemma mkdir_from_grows (rp : list string) :
  forall a parents exist_ok fs r fs',
  mkdir_from a rp parents exist_ok fs = (r, fs') ->
  forall q, fs' !! q = fs !! q
            \/ (above q (mkPath a (rev rp)) /\ fs !! q = None /\ fs' !! q = Some Dir).
Proof.
  induction rp as [|c rp IH]; intros a parents exist_ok fs r fs' Hrun q.
  - cbn [mkdir_from] in Hrun.
    destruct (os_mkdir_cases (mkPath a (rev [])) fs) as [(_ & Hp & _)|(e & He)].
    { discriminate. }
    rewrite He in Hrun. left.
    destruct e; try destruct (negb exist_ok || _); congruence.
  - cbn [mkdir_from] in Hrun.
    destruct (os_mkdir_cases (mkPath a (rev (c :: rp))) fs)
      as [(_ & Hp & _ & He)|(e & He)]; rewrite He in Hrun.
    + injection Hrun as <- <-. destruct (decide (mkPath a (rev (c :: rp)) = q)) as [<-|Hne].
      * right. apply entry_None in Hp as [_ Hp].
        split; [apply above_refl|]. split; [assumption|apply lookup_insert_eq].
      * left. now apply lookup_insert_ne.
    + destruct e; try (left; destruct (negb exist_ok || _); congruence).
      destruct parents; cbn [negb] in Hrun; [|left; congruence].
      destruct (mkdir_from a rp true true fs) as [[[]|e] fs1] eqn:Hrec.
      * specialize (IH _ _ _ _ _ _ Hrec).
        destruct (mkdir_single_cases (mkPath a (rev (c :: rp))) exist_ok fs1)
          as [(Hp & _ & Hs)|[(_ & _ & Hs)|(e & Hs)]]; rewrite Hs in Hrun;
          injection Hrun as <- <-.
        -- destruct (decide (mkPath a (rev (c :: rp)) = q)) as [<-|Hne].
           ++ right. split; [apply above_refl|]. rewrite lookup_insert_eq.
              apply entry_None in Hp as [_ Hp].
              destruct (IH (mkPath a (rev (c :: rp)))) as [Heq|(_ & _ & Hd)];
                [now rewrite <- Heq|congruence].
           ++ rewrite lookup_insert_ne by assumption.
              destruct (IH q) as [Heq|(Hab & Hn & Hd)]; [now left|right].
              split; [now apply above_parent|now split].
        -- destruct (IH q) as [Heq|(Hab & Hn & Hd)]; [now left|right].
           split; [now apply above_parent|now split].
        -- destruct (IH q) as [Heq|(Hab & Hn & Hd)]; [now left|right].
           split; [now apply above_parent|now split].
      * injection Hrun as <- <-.
        destruct (IH _ _ _ _ _ _ Hrec q) as [Heq|(Hab & Hn & Hd)]; [now left|right].
        split; [now apply above_parent|now split].
Qed.

Lemma is_dir_insert (fs : gmap Path node) (p : Path) :
  entry fs p = None -> is_dir (<[p := Dir]> fs) p = true.
Proof.
  intros Hp. apply entry_None in Hp as [Hp _]. unfold is_dir.
  rewrite entry_insert by assumption. now rewrite decide_True.
Qed.

(** A successful [mkdir] leaves a directory at the path. *)
Lemma mkdir_from_is_dir (rp : list string) (a parents exist_ok : bool)
    (fs fs' : gmap Path node) :
  mkdir_from a rp parents exist_ok fs = (Ok tt, fs') ->
  is_dir fs' (mkPath a (rev rp)) = true.
Proof.
  destruct rp as [|c rp]; cbn [mkdir_from]; intros Hrun.
  - destruct (os_mkdir_cases (mkPath a (rev [])) fs) as [(_ & Hp & _)|(e & He)];
      [discriminate|].
    rewrite He in Hrun.
    destruct e; try discriminate; destruct exist_ok; try discriminate;
      cbn in Hrun; reflexivity.
  - destruct (os_mkdir_cases (mkPath a (rev (c :: rp))) fs)
      as [(_ & Hp & _ & He)|(e & He)]; rewrite He in Hrun.
    + injection Hrun as <-. now apply is_dir_insert.
    + assert (Hforgiven : forall e',
        (if negb exist_ok || negb (is_dir fs (mkPath a (rev (c :: rp))))
         then (Err e', fs) else (Ok tt, fs)) = (Ok tt, fs') ->
        is_dir fs' (mkPath a (rev (c :: rp))) = true).
      { intros e'. destruct exist_ok; [|discriminate].
        destruct (is_dir fs _) eqn:Hd; [|discriminate]. cbn. now intros [= <-]. }
      destruct e; try (now apply (Hforgiven _ Hrun)).
      destruct parents; [|discriminate]. cbn [negb] in Hrun.
      destruct (mkdir_from a rp true true fs) as [[[]|e] fs1]; [|discriminate].
      destruct (mkdir_single_cases (mkPath a (rev (c :: rp))) exist_ok fs1)
        as [(Hp & _ & Hs)|[(_ & Hd & Hs)|(e & Hs)]]; rewrite Hs in Hrun;
        try discriminate; injection Hrun as <-;
        [now apply is_dir_insert|assumption].
Qed.

Lemma path_exists_is_dir (fs : gmap Path node) (p : Path) :
  is_dir fs p = true -> path_exists fs p = true.
Proof. unfold is_dir, path_exists. now destruct (entry fs p). Qed.









End MkdirFacts.

(** * Runs of the script *)

Lemma Path_mkdir_eta (p : Path) : mkPath (absolute p) (rev (rev (parts p))) = p.
Proof. destruct p. simpl. now rewrite rev_involutive. Qed.


Lemma prepare_output_dir_run `{Externals} (fs : gmap Path node) (p : Path) :
  prepare_output_dir p fs =
  if path_exists fs p then (Returned tt, fs, [Ev_exists p true])
  else match Path_mkdir p true false fs with
       | (r, fs') => (of_result r, fs', [Ev_exists p false; Ev_mkdir p r])
       end.
Proof.
  cbv [prepare_output_dir mbind M_bind mret M_ret exists_ mkdir].
  destruct (path_exists fs p); [reflexivity|]. cbn [negb].
  destruct (Path_mkdir p true false fs) as [[[]|e] fs']; reflexivity.
Qed.

(** The preparation step never exits and calls no collaborator. *)
Lemma prepare_output_dir_events `{Externals} (fs fs' : gmap Path node) (p : Path)
    (o : outcome unit) (t : list (event reader figure)) :
  prepare_output_dir p fs = (o, fs', t) ->
  (forall c, o <> SystemExit c)
  /\ (forall ev, In ev t -> raised_by ev = None)
  /\ (o = Returned tt ->
      t = [Ev_exists p true] \/ t = [Ev_exists p false; Ev_mkdir p (Ok tt)]).
Proof.
  rewrite prepare_output_dir_run. destruct (path_exists fs p).
  - intros [= <- <- <-]. split; [discriminate|]. split; [|now left].
    intros ev [<-|[]]. reflexivity.
  - destruct (Path_mkdir p true false fs) as [[[]|e] fs1]; intros [= <- <- <-];
      (split; [discriminate|]); (split; [|try discriminate; now right]);
      intros ev [<-|[<-|[]]]; reflexivity.
Qed.

Lemma probes_events `{Externals} (fs : gmap Path node) (d : Path) (ev : event reader figure) :
  In ev (probes fs d) -> raised_by ev = None /\ creates_or_loads ev = false.
Proof.
  unfold probes. intros Hin. apply in_map_iff in Hin as (f & <- & _). now split.
Qed.

Ltac run_call c := destruct c as [[?|?] ?] eqn:?; cbn [of_result app].

Ltac run_calls :=
  repeat match goal with
    | |- context [DataReader ?a ?b ?c] => run_call (DataReader a b c)
    | |- context [make_figure_2 ?a ?b] => run_call (make_figure_2 a b)
    | |- context [make_figure_3 ?a ?b] => run_call (make_figure_3 a b)
    | |- context [make_figure_4 ?a ?b] => run_call (make_figure_4 a b)
    | |- context [make_figure_5 ?a ?b] => run_call (make_figure_5 a b)
    | |- context [savefig ?a ?b ?c] => run_call (savefig a b c)
    end.

(** Case analysis of a run of [reproduce_figures], call by call. *)
Ltac run_script :=
  unfold reproduce_figures; cbv zeta;
  rewrite bind_run, check_input_data_exists_run;
  destruct (all _) eqn:?;
  [ rewrite bind_run;
    match goal with
    | |- context [prepare_output_dir ?p ?fs] =>
        destruct (prepare_output_dir p fs) as [[[[]|?|?] ?] ?] eqn:?
    end;
    [ cbv [mbind M_bind mret M_ret print resolve_ new_DataReader flush
           call_make_figure call_savefig builder];
      run_calls | | ]
  | ].

(** A run that returns went through every step, and conversely. *)
Lemma successful_run `{Externals} (fs : gmap Path node) (d o : string)
    (fs' : gmap Path node) (t : list (event reader figure)) :
  reproduce_figures d o fs = (Returned tt, fs', t) <->
  exists prep fs1 rd fs2 f2 fs3 f3 fs4 f4 fs5 f5 fs6 fs7 fs8 fs9,
    (forall fname, In fname filenames ->
                   path_exists fs (joinpath (PurePath d) fname) = true)
    /\ prepare_output_dir (PurePath o) fs = (Returned tt, fs1, prep)
    /\ DataReader (PurePath d) "OOMMF" fs1 = (Ok rd, fs2)
    /\ make_figure_2 rd fs2 = (Ok f2, fs3)
    /\ make_figure_3 rd fs3 = (Ok f3, fs4)
    /\ make_figure_4 rd fs4 = (Ok f4, fs5)
    /\ make_figure_5 rd fs5 = (Ok f5, fs6)
    /\ savefig f2 (str (joinpath (PurePath o) "figure_2.png")) fs6 = (Ok tt, fs7)
    /\ savefig f3 (str (joinpath (PurePath o) "figure_3.png")) fs7 = (Ok tt, fs8)
    /\ savefig f4 (str (joinpath (PurePath o) "figure_4.png")) fs8 = (Ok tt, fs9)
    /\ savefig f5 (str (joinpath (PurePath o) "figure_5.png")) fs9 = (Ok tt, fs')
    /\ t = probes fs (PurePath d) ++ prep
           ++ generation_events (PurePath d) (PurePath o)
                (resolve fs1 (PurePath d)) (resolve fs1 (PurePath o)) rd f2 f3 f4 f5.
Proof.
  split.
  - run_script; intros [= <- <-].
    repeat match goal with u : unit |- _ => destruct u end.
    do 15 eexists. rewrite <- all_exists_iff. repeat (split; [first [eassumption|reflexivity]|]).
    reflexivity.
  - intros (prep & fs1 & rd & fs2 & f2 & fs3 & f3 & fs4 & f4 & fs5 & f5 & fs6
            & fs7 & fs8 & fs9 & Hall & Hprep & Hrd & H2 & H3 & H4 & H5
            & S2 & S3 & S4 & S5 & ->).
    unfold reproduce_figures. cbv zeta.
    rewrite bind_run, check_input_data_exists_run.
    rewrite (proj2 (all_exists_iff _ _) Hall), bind_run, Hprep.
    cbv [mbind M_bind mret M_ret print resolve_ new_DataReader flush
         call_make_figure call_savefig builder].
    rewrite Hrd. cbn [of_result]. rewrite H2. cbn [of_result].
    rewrite H3. cbn [of_result]. rewrite H4. cbn [of_result].
    rewrite H5. cbn [of_result]. rewrite S2. cbn [of_result].
    rewrite S3. cbn [of_result]. rewrite S4. cbn [of_result].
    rewrite S5. reflexivity.
Qed.

(** * The validator: acceptance and rejection *)

Lemma path_exists_lookup (fs : gmap Path node) (p : Path) (n : node) :
  fs !! p = Some n -> path_exists fs p = true.
Proof.
  intros Hp. unfold path_exists, entry. destruct (parts p); [reflexivity|].
  now rewrite Hp.
Qed.

Lemma install_lookup (kind : string -> node) (d : Path) (fs : gmap Path node)
    (fname : string) :
  In fname filenames -> is_Some (install kind d fs !! joinpath d fname).
Proof.
  unfold install. induction filenames as [|f l IH]; [intros []|].
  intros Hin. cbn [foldr]. rewrite lookup_insert.
  destruct (decide (joinpath d f = joinpath d fname)); [now eexists|].
  destruct Hin as [->|Hin]; [congruence|now apply IH].
Qed.

(** A run never ends in an exit once the validator has accepted. *)
Lemma accepted_run_never_exits `{Externals} (fs : gmap Path node) (d o : string) :
  (forall fname, In fname filenames ->
                 path_exists fs (joinpath (PurePath d) fname) = true) ->
  exists o' fs' rest,
    reproduce_figures d o fs
    = (o', fs', probes fs (PurePath d)
                ++ Ev_exists (PurePath o) (path_exists fs (PurePath o)) :: rest)
    /\ forall c, o' <> SystemExit c.
Proof.
  intros Hall. apply all_exists_iff in Hall.
  assert (Hprep : forall o1 fs1 prep,
    prepare_output_dir (PurePath o) fs = (o1, fs1, prep) ->
    (forall c, o1 <> SystemExit c)
    /\ exists rest, prep = Ev_exists (PurePath o) (path_exists fs (PurePath o)) :: rest).
  { intros o1 fs1 prep Hp. split; [apply (prepare_output_dir_events _ _ _ _ _ Hp)|].
    rewrite prepare_output_dir_run in Hp. destruct (path_exists fs (PurePath o)).
    - injection Hp as <- <- <-. now eexists.
    - destruct (Path_mkdir _ _ _ _) as [r fs2]. injection Hp as <- <- <-. now eexists. }
  revert Hprep. run_script; try congruence; intros Hprep;
    destruct (Hprep _ _ _ eq_refl) as [Hne [rest ->]];
    try (exfalso; eapply Hne; reflexivity);
    (do 3 eexists; split; [cbn [app]; reflexivity|discriminate]).
Qed.

(** C5. A data directory holding an entry under each of the four required
    names is accepted: the validator returns, prints nothing and leaves the
    file system as it is (what the entries contain plays no part), and the
    run goes on to the output directory and does not end in an exit. *)
Theorem validator_accepts_complete_directory `{Externals}
    (fs : gmap Path node) (d o : string) :
  (forall fname, In fname filenames ->
                 path_exists fs (joinpath (PurePath d) fname) = true) ->
  check_input_data_exists (PurePath d) fs
  = (Returned tt, fs, probes fs (PurePath d))
  /\ stdout (probes fs (PurePath d)) = []
  /\ exists o' fs' rest,
       reproduce_figures d o fs
       = (o', fs', probes fs (PurePath d)
                   ++ Ev_exists (PurePath o) (path_exists fs (PurePath o)) :: rest)
       /\ forall c, o' <> SystemExit c.
Proof.
  intros Hall. split; [|split].
  - rewrite check_input_data_exists_run.
    now rewrite (proj2 (all_exists_iff _ _) Hall).
  - reflexivity.
  - now apply accepted_run_never_exits.
Qed.

Lemma validator_accepts_complete_directory_witness :
  (forall fname, In fname filenames ->
     path_exists Sample.fs_full (joinpath (PurePath "/data") fname) = true)
  /\ @check_input_data_exists Sample.externals (PurePath "/data") Sample.fs_full
     = (Returned tt, Sample.fs_full,
        @probes Sample.externals Sample.fs_full (PurePath "/data")).
Proof.
  assert (Hall : forall fname, In fname filenames ->
     path_exists Sample.fs_full (joinpath (PurePath "/data") fname) = true).
  { intros fname Hin. repeat destruct Hin as [<-|Hin]; try contradiction;
      vm_compute; reflexivity. }
  split; [exact Hall|].
  exact (proj1 (@validator_accepts_complete_directory Sample.externals
                  Sample.fs_full "/data" "/out" Hall)).
Defined.

(** What the script sees at a path is what [stat] finds there. *)
Lemma stat_anchor (fuel : nat) (l : gmap Path Links.lnode) (p : Path) :
  parts p = [] -> Links.stat fuel l p = Some Dir.
Proof. intros Hp. destruct fuel; simpl; now rewrite Hp. Qed.

Lemma stat_absent (fuel : nat) (l : gmap Path Links.lnode) (p : Path) :
  l !! p = None -> parts p <> [] -> Links.stat fuel l p = None.
Proof.
  intros Hl Hp. destruct fuel; simpl; destruct (parts p); try congruence;
    now rewrite Hl.
Qed.

Lemma entry_seen (l : gmap Path Links.lnode) (p : Path) :
  entry (Links.seen l) p = Links.stat Links.max_links l p.
Proof.
  unfold entry, Links.seen. destruct (parts p) as [|w ws] eqn:Hp.
  - symmetry. now apply stat_anchor.
  - rewrite map_lookup_imap. destruct (l !! p) as [x|] eqn:Hl; [reflexivity|].
    symmetry. apply stat_absent; [assumption|congruence].
Qed.

Lemma path_exists_seen (l : gmap Path Links.lnode) (p : Path) :
  path_exists (Links.seen l) p = true <-> is_Some (Links.stat Links.max_links l p).
Proof.
  unfold path_exists. rewrite entry_seen.
  destruct (Links.stat Links.max_links l p) as [n|].
  - split; [now eexists|reflexivity].
  - split; [discriminate|now intros [n Hn]].
Qed.

(** C10, as it is worded, fails: not every entry bearing a required
    name satisfies the requirement.  Here each of the four names has an
    entry in the data directory, the one named [mxs.npy] being a symbolic
    link whose target is missing; [exists()] says no at that name and the
    validator rejects the directory. *)
Lemma dangling_link_does_not_satisfy :
  let l := Links.fs_dangling in
  let run := @check_input_data_exists Sample.externals Sample.data (Links.seen l) in
  forallb (fun fname => Links.lexists l (joinpath Sample.data fname)) filenames = true
  /\ l !! joinpath Sample.data "mxs.npy" = Some (Links.Link "gone.npy")
  /\ fst (fst run) = SystemExit None
  /\ snd run
     = [ Ev_exists (joinpath Sample.data "dynamic_txyz.txt") true;
         Ev_exists (joinpath Sample.data "mxs.npy") false;
         Ev_exists (joinpath Sample.data "mys.npy") true;
         Ev_exists (joinpath Sample.data "mzs.npy") true;
         Ev_print (not_found_message Sample.data filenames) ].
Proof. repeat split; vm_compute; reflexivity. Qed.

(** C10, amended.  The validator tests existence only, as [stat] decides
    it: it accepts the directory exactly when, under each of the four
    required names, [stat] finds something, be it at the entry of that name
    or at the end of the symbolic links that start there; a link that leads
    nowhere does not count.  Whatever the kind of what is found (regular
    files, directories or anything else), the directory is accepted; and on
    two file systems where the same required names exist, the validator
    does the same. *)
Theorem validator_checks_existence_only `{Externals} (d : Path) :
  (forall l : gmap Path Links.lnode,
     check_input_data_exists d (Links.seen l)
     = (Returned tt, Links.seen l, probes (Links.seen l) d)
     <-> forall fname, In fname filenames ->
                       is_Some (Links.stat Links.max_links l (joinpath d fname)))
  /\ (forall (kind : string -> node) (fs : gmap Path node),
        check_input_data_exists d (install kind d fs)
        = (Returned tt, install kind d fs, probes (install kind d fs) d))
  /\ forall fs1 fs2 : gmap Path node,
       (forall fname, In fname filenames ->
          path_exists fs1 (joinpath d fname) = path_exists fs2 (joinpath d fname)) ->
       fst (fst (check_input_data_exists d fs1))
       = fst (fst (check_input_data_exists d fs2))
       /\ snd (check_input_data_exists d fs1) = snd (check_input_data_exists d fs2).
Proof.
  split; [|split].
  - intros l. rewrite check_input_data_exists_run.
    assert (Hiff : all (map (fun fname => path_exists (Links.seen l) (joinpath d fname))
                            filenames) = true
                   <-> forall fname, In fname filenames ->
                         is_Some (Links.stat Links.max_links l (joinpath d fname))).
    { rewrite all_exists_iff. split; intros Hall fname Hin;
        apply path_exists_seen, Hall, Hin. }
    destruct (all _).
    + split; [intros _; now apply Hiff|reflexivity].
    + split; [discriminate|]. intros Hall. now apply Hiff in Hall.
  - intros kind fs. rewrite check_input_data_exists_run.
    assert (Hall : all (map (fun fname => path_exists (install kind d fs) (joinpath d fname))
                            filenames) = true).
    { apply all_exists_iff. intros fname Hin.
      destruct (install_lookup kind d fs fname Hin) as [n Hn].
      now apply path_exists_lookup with n. }
    now rewrite Hall.
  - intros fs1 fs2 Hsame. rewrite !check_input_data_exists_run.
    assert (Hmap : map (fun fname => path_exists fs1 (joinpath d fname)) filenames
                   = map (fun fname => path_exists fs2 (joinpath d fname)) filenames)
      by (apply map_ext_in; exact Hsame).
    assert (Hprobes : probes fs1 d = probes fs2 d).
    { unfold probes. apply map_ext_in. intros f Hf. now rewrite (Hsame f Hf). }
    rewrite Hmap, Hprobes. now destruct (all _).
Qed.

Lemma validator_checks_existence_only_witness :
  (forall fname, In fname filenames ->
     is_Some (Links.stat Links.max_links Links.fs_linked (joinpath Sample.data fname)))
  /\ Links.fs_linked !! joinpath Sample.data "mxs.npy" = Some (Links.Link "mys.npy")
  /\ @check_input_data_exists Sample.externals Sample.data (Links.seen Links.fs_linked)
     = (Returned tt, Links.seen Links.fs_linked,
        @probes Sample.externals (Links.seen Links.fs_linked) Sample.data)
  /\ (forall fname, In fname filenames ->
        path_exists Sample.fs_full (joinpath Sample.data fname)
        = path_exists Sample.fs_dirs (joinpath Sample.data fname))
  /\ fst (fst (@check_input_data_exists Sample.externals Sample.data Sample.fs_full))
     = fst (fst (@check_input_data_exists Sample.externals Sample.data Sample.fs_dirs))
  /\ is_dir Sample.fs_dirs (joinpath Sample.data "mxs.npy") = true.
Proof.
  assert (Hall : forall fname, In fname filenames ->
     is_Some (Links.stat Links.max_links Links.fs_linked (joinpath Sample.data fname))).
  { intros fname Hin. repeat destruct Hin as [<-|Hin]; try contradiction;
      eexists; vm_compute; reflexivity. }
  assert (Hsame : forall fname, In fname filenames ->
     path_exists Sample.fs_full (joinpath Sample.data fname)
     = path_exists Sample.fs_dirs (joinpath Sample.data fname)).
  { intros fname Hin. repeat destruct Hin as [<-|Hin]; try contradiction;
      vm_compute; reflexivity. }
  split; [exact Hall|]. split; [vm_compute; reflexivity|].
  split; [exact (proj2 (proj1 (@validator_checks_existence_only Sample.externals
                                 Sample.data) Links.fs_linked) Hall)|].
  split; [exact Hsame|]. split; [|vm_compute; reflexivity].
  exact (proj1 (proj2 (proj2 (@validator_checks_existence_only Sample.externals
                                Sample.data))
                 Sample.fs_full Sample.fs_dirs Hsame)).
Defined.

(** C1, as the specification words it, fails: when only [mzs.npy] is
    absent, the list the message shows is not the list of the missing files.
    The message names [dynamic_txyz.txt], which is there. *)
Lemma message_lists_all_required_files :
  let msg := not_found_message (PurePath "/data") filenames in
  @reproduce_figures Sample.externals "/data" "/out" Sample.fs_no_mzs
  = (SystemExit None, Sample.fs_no_mzs,
     @probes Sample.externals Sample.fs_no_mzs (PurePath "/data") ++ [Ev_print msg])
  /\ spec_missing_files Sample.fs_no_mzs (PurePath "/data") = ["mzs.npy"]
  /\ ~ mentions msg (repr_list (spec_missing_files Sample.fs_no_mzs (PurePath "/data")))
  /\ path_exists Sample.fs_no_mzs (joinpath (PurePath "/data") "dynamic_txyz.txt") = true
  /\ mentions msg "'dynamic_txyz.txt'".
Proof.
  intros msg.
  assert (Hmissing : spec_missing_files Sample.fs_no_mzs (PurePath "/data") = ["mzs.npy"])
    by (vm_compute; reflexivity).
  split; [|split; [exact Hmissing|split; [|split]]].
  - apply reproduce_figures_rejected. exists "mzs.npy".
    split; [simpl; tauto|vm_compute; reflexivity].
  - rewrite Hmissing, <- contains_mentions. vm_compute. discriminate.
  - vm_compute. reflexivity.
  - apply contains_mentions. vm_compute. reflexivity.
Qed.

(** C1, amended.  When one of the four required files is absent, the run
    prints one message, which names the data directory, shows the list of
    all four required names and mentions the [--data-dir] option; it then
    ends through [sys.exit()], with status 0 and not by an exception, and
    has changed nothing in the file system. *)
Theorem missing_input_reported `{Externals} (fs : gmap Path node) (d o : string) :
  (exists fname, In fname filenames
                 /\ path_exists fs (joinpath (PurePath d) fname) = false) ->
  exists out t msg,
    reproduce_figures d o fs = (out, fs, t)
    /\ stdout t = [msg]
    /\ mentions msg (str (PurePath d))
    /\ mentions msg "['dynamic_txyz.txt', 'mxs.npy', 'mys.npy', 'mzs.npy']"
    /\ mentions msg "'--data-dir'"
    /\ out = SystemExit None
    /\ exit_status out = 0%Z
    /\ forall e, out <> Raised e.
Proof.
  intros Hmiss. eexists. eexists. eexists.
  split; [now apply reproduce_figures_rejected|].
  split; [reflexivity|].
  destruct (not_found_message_mentions (PurePath d)) as (Hd & Hl & Hh).
  repeat (split; [assumption || reflexivity|]). discriminate.
Qed.

Lemma missing_input_reported_witness :
  (exists fname, In fname filenames
     /\ path_exists Sample.fs_no_mzs (joinpath (PurePath "/data") fname) = false)
  /\ exists out t msg,
       @reproduce_figures Sample.externals "/data" "/out" Sample.fs_no_mzs
       = (out, Sample.fs_no_mzs, t)
       /\ @stdout Sample.externals t = [msg]
       /\ mentions msg (str (PurePath "/data"))
       /\ mentions msg "['dynamic_txyz.txt', 'mxs.npy', 'mys.npy', 'mzs.npy']"
       /\ mentions msg "'--data-dir'"
       /\ out = SystemExit None
       /\ exit_status out = 0%Z
       /\ forall e, out <> Raised e.
Proof.
  assert (Hmiss : exists fname, In fname filenames
     /\ path_exists Sample.fs_no_mzs (joinpath (PurePath "/data") fname) = false).
  { exists "mzs.npy". split; [simpl; tauto|vm_compute; reflexivity]. }
  split; [exact Hmiss|].
  exact (@missing_input_reported Sample.externals Sample.fs_no_mzs "/data" "/out" Hmiss).
Defined.

(** C2. Validation comes first in every run: the calls of a run start with
    the four existence tests.  When the validator rejects the directory the
    run stops there: the file system is as before (no output directory was
    made), and the run made no call that creates a directory, constructs a
    [DataReader], builds or saves a figure. *)
Theorem rejected_run_creates_nothing `{Externals} (fs : gmap Path node) (d o : string) :
  (exists rest, snd (reproduce_figures d o fs) = probes fs (PurePath d) ++ rest)
  /\ Forall (fun ev => creates_or_loads ev = false) (probes fs (PurePath d))
  /\ ((exists fname, In fname filenames
                     /\ path_exists fs (joinpath (PurePath d) fname) = false) ->
      exists t,
        reproduce_figures d o fs = (SystemExit None, fs, t)
        /\ Forall (fun ev => creates_or_loads ev = false) t).
Proof.
  assert (Hprobes : Forall (fun ev => creates_or_loads ev = false) (probes fs (PurePath d))).
  { apply List.Forall_forall. intros ev Hin. now apply probes_events in Hin. }
  split; [|split; [exact Hprobes|]].
  - run_script; cbn [snd]; eexists; reflexivity.
  - intros Hmiss. eexists. rewrite reproduce_figures_rejected by assumption.
    split; [reflexivity|].
    apply Forall_app. split; [exact Hprobes|]. now repeat constructor.
Qed.

Lemma rejected_run_creates_nothing_witness :
  (exists fname, In fname filenames
     /\ path_exists Sample.fs_no_mzs (joinpath (PurePath "/data") fname) = false)
  /\ exists t,
       @reproduce_figures Sample.externals "/data" "/out" Sample.fs_no_mzs
       = (SystemExit None, Sample.fs_no_mzs, t)
       /\ Forall (fun ev => creates_or_loads ev = false) t.
Proof.
  assert (Hmiss : exists fname, In fname filenames
     /\ path_exists Sample.fs_no_mzs (joinpath (PurePath "/data") fname) = false).
  { exists "mzs.npy". split; [simpl; tauto|vm_compute; reflexivity]. }
  split; [exact Hmiss|].
  exact (proj2 (proj2 (@rejected_run_creates_nothing Sample.externals
                         Sample.fs_no_mzs "/data" "/out")) Hmiss).
Defined.

(** * Exceptions of the collaborators *)



(** * Preparing the output directory *)

(** The preparation step removes and changes no entry. *)
Lemma prepare_output_dir_keeps `{Externals} (fs fs1 : gmap Path node) (p : Path)
    (o : outcome unit) (t : list (event reader figure)) :
  prepare_output_dir p fs = (o, fs1, t) ->
  (forall q n, fs !! q = Some n -> fs1 !! q = Some n)
  /\ (path_exists fs p = true -> fs1 = fs).
Proof.
  rewrite prepare_output_dir_run. destruct (path_exists fs p).
  - intros [= <- <- <-]. now split.
  - unfold Path_mkdir.
    destruct (mkdir_from (absolute p) (rev (parts p)) true false fs) as [r fs2] eqn:Hrun.
    intros [= <- <- <-]. split; [|discriminate].
    intros q n Hq.
    destruct (mkdir_from_grows _ _ _ _ _ _ _ Hrun q) as [Heq|(_ & Hnone & _)];
      congruence.
Qed.

Lemma prepare_output_dir_again `{Externals} (fs : gmap Path node) (p : Path) :
  path_exists fs p = true ->
  prepare_output_dir p fs = (Returned tt, fs, [Ev_exists p true]).
Proof. intros Hex. rewrite prepare_output_dir_run. now rewrite Hex. Qed.




(** * Runs that go through *)

(** C6. A run that returns made its calls in one fixed order, each on the
    file system the one before left: the four existence tests of the
    validator, all positive; the test of the output directory, followed by
    [mkdir] when it is absent; the three messages with the two resolved
    directories; one [DataReader] on the data directory with format OOMMF,
    which returned the reader; the four builders 2, 3, 4, 5, each once and
    each on that reader alone, which returned the four figures; only then
    the four [savefig], each of the figure its builder returned and to its
    file of the output directory, the last one leaving the final file
    system; last, the completion messages. *)
Theorem successful_run_is_linear `{Externals} (fs : gmap Path node) (d o : string)
    (fs' : gmap Path node) (t : list (event reader figure)) :
  reproduce_figures d o fs = (Returned tt, fs', t) ->
  exists prep fs1 rd fs2 f2 fs3 f3 fs4 f4 fs5 f5 fs6 fs7 fs8 fs9,
    probes fs (PurePath d)
    = map (fun fname => Ev_exists (joinpath (PurePath d) fname) true) filenames
    /\ prepare_output_dir (PurePath o) fs = (Returned tt, fs1, prep)
    /\ (prep = [Ev_exists (PurePath o) true]
        \/ prep = [Ev_exists (PurePath o) false; Ev_mkdir (PurePath o) (Ok tt)])
    /\ DataReader (PurePath d) "OOMMF" fs1 = (Ok rd, fs2)
    /\ make_figure_2 rd fs2 = (Ok f2, fs3)
    /\ make_figure_3 rd fs3 = (Ok f3, fs4)
    /\ make_figure_4 rd fs4 = (Ok f4, fs5)
    /\ make_figure_5 rd fs5 = (Ok f5, fs6)
    /\ savefig f2 (str (joinpath (PurePath o) "figure_2.png")) fs6 = (Ok tt, fs7)
    /\ savefig f3 (str (joinpath (PurePath o) "figure_3.png")) fs7 = (Ok tt, fs8)
    /\ savefig f4 (str (joinpath (PurePath o) "figure_4.png")) fs8 = (Ok tt, fs9)
    /\ savefig f5 (str (joinpath (PurePath o) "figure_5.png")) fs9 = (Ok tt, fs')
    /\ t = probes fs (PurePath d) ++ prep
           ++ [ Ev_print using_message;
                Ev_print ("Input data directory:" ++ nl ++ "   "
                          ++ str (resolve fs1 (PurePath d)) ++ nl);
                Ev_print ("Output directory:" ++ nl ++ "   "
                          ++ str (resolve fs1 (PurePath o)) ++ nl);
                Ev_DataReader (PurePath d) "OOMMF" (Ok rd);
                Ev_print "Generating plots...";
                Ev_flush;
                Ev_make_figure 2 rd (Ok f2);
                Ev_make_figure 3 rd (Ok f3);
                Ev_make_figure 4 rd (Ok f4);
                Ev_make_figure 5 rd (Ok f5);
                Ev_savefig f2 (str (joinpath (PurePath o) "figure_2.png")) (Ok tt);
                Ev_savefig f3 (str (joinpath (PurePath o) "figure_3.png")) (Ok tt);
                Ev_savefig f4 (str (joinpath (PurePath o) "figure_4.png")) (Ok tt);
                Ev_savefig f5 (str (joinpath (PurePath o) "figure_5.png")) (Ok tt);
                Ev_print "Done.";
                Ev_print "Plots have been successfully generated in output directory." ].
Proof.
  intros Hrun. apply successful_run in Hrun
    as (prep & fs1 & rd & fs2 & f2 & fs3 & f3 & fs4 & f4 & fs5 & f5 & fs6
        & fs7 & fs8 & fs9 & Hall & Hprep & Hrd & H2 & H3 & H4 & H5
        & S2 & S3 & S4 & S5 & ->).
  exists prep, fs1, rd, fs2, f2, fs3, f3, fs4, f4, fs5, f5, fs6, fs7, fs8, fs9.
  split; [|split; [exact Hprep|split]].
  - unfold probes. apply map_ext_in. intros f Hf. now rewrite (Hall f Hf).
  - now apply (prepare_output_dir_events _ _ _ _ _ Hprep).
  - repeat (split; [assumption|]). reflexivity.
Qed.

Lemma sample_run_returns :
  exists fs' t,
    @reproduce_figures Sample.externals "/data" "/out/plots" Sample.fs_full
    = (Returned tt, fs', t).
Proof.
  assert (Hout : fst (fst (@reproduce_figures Sample.externals "/data" "/out/plots"
                             Sample.fs_full)) = Returned tt)
    by (vm_compute; reflexivity).
  destruct (@reproduce_figures Sample.externals "/data" "/out/plots" Sample.fs_full)
    as [[out fs'] t].
  exists fs', t. cbn in Hout. now rewrite Hout.
Defined.

Lemma successful_run_is_linear_witness :
  exists fs' t,
    @reproduce_figures Sample.externals "/data" "/out/plots" Sample.fs_full
    = (Returned tt, fs', t)
    /\ exists prep fs1 rd fs2 f2 fs3 f3 fs4 f4 fs5 f5 fs6 fs7 fs8 fs9,
         @prepare_output_dir Sample.externals (PurePath "/out/plots") Sample.fs_full
         = (Returned tt, fs1, prep)
         /\ @DataReader Sample.externals (PurePath "/data") "OOMMF" fs1 = (Ok rd, fs2)
         /\ @make_figure_2 Sample.externals rd fs2 = (Ok f2, fs3)
         /\ @make_figure_3 Sample.externals rd fs3 = (Ok f3, fs4)
         /\ @make_figure_4 Sample.externals rd fs4 = (Ok f4, fs5)
         /\ @make_figure_5 Sample.externals rd fs5 = (Ok f5, fs6)
         /\ @savefig Sample.externals f2 "/out/plots/figure_2.png" fs6 = (Ok tt, fs7)
         /\ @savefig Sample.externals f3 "/out/plots/figure_3.png" fs7 = (Ok tt, fs8)
         /\ @savefig Sample.externals f4 "/out/plots/figure_4.png" fs8 = (Ok tt, fs9)
         /\ @savefig Sample.externals f5 "/out/plots/figure_5.png" fs9 = (Ok tt, fs')
         /\ t = @probes Sample.externals Sample.fs_full (PurePath "/data") ++ prep
                ++ @generation_events Sample.externals
                     (PurePath "/data") (PurePath "/out/plots")
                     (PurePath "/data") (PurePath "/out/plots") rd f2 f3 f4 f5.
Proof.
  destruct sample_run_returns as (fs' & t & Hrun). exists fs', t.
  split; [exact Hrun|].
  destruct (@successful_run_is_linear Sample.externals _ _ _ _ _ Hrun)
    as (prep & fs1 & rd & fs2 & f2 & fs3 & f3 & fs4 & f4 & fs5 & f5 & fs6
        & fs7 & fs8 & fs9 & _ & Hprep & _ & Hrd & H2 & H3 & H4 & H5
        & S2 & S3 & S4 & S5 & Ht).
  exists prep, fs1, rd, fs2, f2, fs3, f3, fs4, f4, fs5, f5, fs6, fs7, fs8, fs9.
  repeat (split; [assumption|]). exact Ht.
Defined.

(** * What is written *)

Lemma figure_name_path (o name : string) :
  wf_part name = true ->
  PurePath (str (joinpath (PurePath o) name)) = child (PurePath o) name.
Proof. apply PurePath_str_joinpath. Qed.

(** C7. A run that returns saved exactly four files, after everything
    else: [figure_2.png] to [figure_5.png] of the output directory, in this
    order, with no existence test or message in between.  With [savefig]
    writing the rendered image at the path it is given, the file system at
    the end is the one the last builder left with these four files written
    over it: each of the four paths holds the image of its figure, whatever
    was there before. *)
Theorem four_figures_saved `{Externals} (render : figure -> string)
    (fs : gmap Path node) (d o : string) (fs' : gmap Path node) (t : list (event reader figure)) :
  (forall fig fname fs0 fs1,
     savefig fig fname fs0 = (Ok tt, fs1) ->
     fs1 = <[PurePath fname := File (render fig)]> fs0) ->
  reproduce_figures d o fs = (Returned tt, fs', t) ->
  exists t0 rd fs5 fs0 f2 f3 f4 f5,
    make_figure_5 rd fs5 = (Ok f5, fs0)
    /\ t = t0 ++ [ Ev_savefig f2 (str (child (PurePath o) "figure_2.png")) (Ok tt);
                Ev_savefig f3 (str (child (PurePath o) "figure_3.png")) (Ok tt);
                Ev_savefig f4 (str (child (PurePath o) "figure_4.png")) (Ok tt);
                Ev_savefig f5 (str (child (PurePath o) "figure_5.png")) (Ok tt);
                Ev_print "Done.";
                Ev_print "Plots have been successfully generated in output directory." ]
    /\ Forall (fun ev => match ev with Ev_savefig _ _ _ => False | _ => True end) t0
    /\ fs' = <[child (PurePath o) "figure_5.png" := File (render f5)]>
             (<[child (PurePath o) "figure_4.png" := File (render f4)]>
             (<[child (PurePath o) "figure_3.png" := File (render f3)]>
             (<[child (PurePath o) "figure_2.png" := File (render f2)]> fs0)))
    /\ fs' !! child (PurePath o) "figure_2.png" = Some (File (render f2))
    /\ fs' !! child (PurePath o) "figure_3.png" = Some (File (render f3))
    /\ fs' !! child (PurePath o) "figure_4.png" = Some (File (render f4))
    /\ fs' !! child (PurePath o) "figure_5.png" = Some (File (render f5))
    /\ Forall (fun p => parent p = PurePath o) (figure_files (PurePath o)).
Proof.
  intros Hsave Hrun. apply successful_run in Hrun
    as (prep & fs1 & rd & fs2 & f2 & fs3 & f3 & fs4 & f4 & fs5 & f5 & fs6
        & fs7 & fs8 & fs9 & Hall & Hprep & _ & _ & _ & _ & B5
        & S2 & S3 & S4 & S5 & ->).
  apply Hsave in S2, S3, S4, S5.
  rewrite figure_name_path in S2, S3, S4, S5 by reflexivity.
  exists (probes fs (PurePath d) ++ prep
          ++ [ Ev_print using_message;
               Ev_print ("Input data directory:" ++ nl ++ "   "
                         ++ str (resolve fs1 (PurePath d)) ++ nl);
               Ev_print ("Output directory:" ++ nl ++ "   "
                         ++ str (resolve fs1 (PurePath o)) ++ nl);
               Ev_DataReader (PurePath d) "OOMMF" (Ok rd);
               Ev_print "Generating plots...";
               Ev_flush;
               Ev_make_figure 2 rd (Ok f2);
               Ev_make_figure 3 rd (Ok f3);
               Ev_make_figure 4 rd (Ok f4);
               Ev_make_figure 5 rd (Ok f5) ]), rd, fs5, fs6, f2, f3, f4, f5.
  assert (Hne : forall n m : string, n <> m -> child (PurePath o) n <> child (PurePath o) m).
  { intros n m Hnm Heq. now apply child_inj in Heq. }
  split; [exact B5|].
  split; [|split; [|split; [|split; [|split; [|split; [|split]]]]]].
  - rewrite <- !List.app_assoc. reflexivity.
  - apply Forall_app. split.
    + apply List.Forall_forall. intros ev Hin. unfold probes in Hin.
      apply in_map_iff in Hin as (f & <- & _). exact I.
    + apply Forall_app. split; [|now repeat constructor].
      destruct (proj2 (proj2 (prepare_output_dir_events _ _ _ _ _ Hprep)) eq_refl)
        as [-> | ->]; now repeat constructor.
  - now subst.
  - subst. rewrite !lookup_insert_ne by (apply Hne; discriminate).
    apply lookup_insert_eq.
  - subst. rewrite !lookup_insert_ne by (apply Hne; discriminate).
    apply lookup_insert_eq.
  - subst. rewrite !lookup_insert_ne by (apply Hne; discriminate).
    apply lookup_insert_eq.
  - subst. apply lookup_insert_eq.
  - unfold figure_files. cbn [map]. repeat constructor; apply parent_child.
Qed.

Lemma sample_savefig_writes (fig : nat) (fname : string) (fs0 fs1 : gmap Path node) :
  Sample.save_image fig fname fs0 = (Ok tt, fs1) ->
  fs1 = <[PurePath fname := File (Sample.render fig)]> fs0.
Proof.
  unfold Sample.save_image. destruct (is_dir fs0 _); [|discriminate].
  destruct (entry fs0 _) as [[]|]; intros [= <-]; reflexivity.
Qed.

Lemma four_figures_saved_witness :
  (forall fig fname fs0 fs1,
     @savefig Sample.externals fig fname fs0 = (Ok tt, fs1) ->
     fs1 = <[PurePath fname := File (Sample.render fig)]> fs0)
  /\ exists fs' t,
       @reproduce_figures Sample.externals "/data" "/out/plots" Sample.fs_full
       = (Returned tt, fs', t)
       /\ exists f2 f5,
            fs' !! child (PurePath "/out/plots") "figure_2.png"
            = Some (File (Sample.render f2))
            /\ fs' !! child (PurePath "/out/plots") "figure_5.png"
               = Some (File (Sample.render f5)).
Proof.
  split; [exact sample_savefig_writes|].
  destruct sample_run_returns as (fs' & t & Hrun). exists fs', t.
  split; [exact Hrun|].
  destruct (@four_figures_saved Sample.externals Sample.render _ _ _ _ _
              sample_savefig_writes Hrun)
    as (t0 & rd & fs5 & fs0 & f2 & f3 & f4 & f5 & _ & _ & _ & _ & H2 & _ & _ & H5 & _).
  exists f2, f5. split; [exact H2|exact H5].
Defined.

(** * What is left alone *)

(** C8. With a reader and builders that leave the file system alone and a
    [savefig] that touches nothing but the file it is given, whatever the
    run ends with, no entry besides the four figure files is removed or
    changed; and when the output directory exists beforehand, the four
    figure files are the only paths at which the file system can differ
    after the run. *)
Theorem unrelated_files_untouched `{Externals} (fs : gmap Path node) (d o : string)
    (out : outcome unit) (fs' : gmap Path node) (t : list (event reader figure)) :
  (forall dd fmt fs0 r fs1, DataReader dd fmt fs0 = (r, fs1) -> fs1 = fs0) ->
  (forall n rd fs0 r fs1, builder n rd fs0 = (r, fs1) -> fs1 = fs0) ->
  (forall fig fname fs0 r fs1 q,
     savefig fig fname fs0 = (r, fs1) -> q <> PurePath fname -> fs1 !! q = fs0 !! q) ->
  reproduce_figures d o fs = (out, fs', t) ->
  (forall q n, ~ In q (figure_files (PurePath o)) ->
               fs !! q = Some n -> fs' !! q = Some n)
  /\ (path_exists fs (PurePath o) = true ->
      forall q, ~ In q (figure_files (PurePath o)) -> fs' !! q = fs !! q).
Proof.
  intros Hreader Hbuild Hsave Hrun.
  assert (Hkey : forall q, ~ In q (figure_files (PurePath o)) ->
    fs' !! q = fs !! q
    \/ exists o1 fs1 l, prepare_output_dir (PurePath o) fs = (o1, fs1, l)
                        /\ fs' !! q = fs1 !! q).
  { intros q Hq.
    assert (Hne : forall name, In name ["figure_2.png"; "figure_3.png"; "figure_4.png"; "figure_5.png"] ->
                  q <> PurePath (str (joinpath (PurePath o) name))).
    { intros name Hname ->. apply Hq. unfold figure_files.
      rewrite figure_name_path
        by (repeat destruct Hname as [<-|Hname]; try contradiction; reflexivity).
      now apply in_map. }
    revert Hrun. run_script; intros [= <- <- <-]; [idtac..|now left];
      right; do 3 eexists; (split; [first [eassumption|reflexivity]|]);
      repeat match goal with
        | Hc : DataReader _ _ _ = _ |- _ => apply Hreader in Hc
        | Hc : make_figure_2 _ _ = _ |- _ => apply (Hbuild 2) in Hc
        | Hc : make_figure_3 _ _ = _ |- _ => apply (Hbuild 3) in Hc
        | Hc : make_figure_4 _ _ = _ |- _ => apply (Hbuild 4) in Hc
        | Hc : make_figure_5 _ _ = _ |- _ => apply (Hbuild 5) in Hc
        | Hc : savefig _ _ _ = _ |- _ =>
            apply (fun Hcall => Hsave _ _ _ _ _ q Hcall) in Hc;
            [|apply Hne; cbn [In]; tauto]
        end;
      congruence. }
  split.
  - intros q n Hq Hn. destruct (Hkey q Hq) as [Heq|(o1 & fs1 & l & Hprep & Heq)];
      [congruence|].
    rewrite Heq. now apply (prepare_output_dir_keeps _ _ _ _ _ Hprep).
  - intros Hex q Hq. destruct (Hkey q Hq) as [Heq|(o1 & fs1 & l & Hprep & Heq)];
      [assumption|].
    rewrite Heq. now rewrite (proj2 (prepare_output_dir_keeps _ _ _ _ _ Hprep) Hex).
Qed.

Lemma sample_reader_readonly (dd : Path) (fmt : string) (fs0 : gmap Path node)
    (r : result Path) (fs1 : gmap Path node) :
  Sample.open_reader dd fmt fs0 = (r, fs1) -> fs1 = fs0.
Proof.
  unfold Sample.open_reader. destruct (negb _); [now intros [= <- <-]|].
  destruct (entry fs0 _) as [[]|]; now intros [= <- <-].
Qed.

Lemma sample_builders_readonly (n : nat) (rd : Path) (fs0 : gmap Path node)
    (r : result nat) (fs1 : gmap Path node) :
  @builder Sample.externals n rd fs0 = (r, fs1) -> fs1 = fs0.
Proof.
  destruct n as [|[|[|[|[|n]]]]]; cbn; now intros [= <- <-].
Qed.

Lemma sample_savefig_frame (fig : nat) (fname : string) (fs0 : gmap Path node)
    (r : result unit) (fs1 : gmap Path node) (q : Path) :
  Sample.save_image fig fname fs0 = (r, fs1) -> q <> PurePath fname ->
  fs1 !! q = fs0 !! q.
Proof.
  unfold Sample.save_image. intros Hcall Hq.
  destruct (is_dir fs0 _); [|now injection Hcall as <- <-].
  destruct (entry fs0 _) as [[]|]; injection Hcall as <- <-;
    try reflexivity; now apply lookup_insert_ne.
Qed.

Lemma unrelated_files_untouched_witness :
  let run := @reproduce_figures Sample.externals "/data" "/out" Sample.fs_out in
  path_exists Sample.fs_out (PurePath "/out") = true
  /\ ~ In Sample.notes (figure_files (PurePath "/out"))
  /\ snd (fst run) !! Sample.notes = Sample.fs_out !! Sample.notes
  /\ fst (fst run) = Returned tt.
Proof.
  intros run.
  assert (Hrun : run = (fst (fst run), snd (fst run), snd run))
    by (destruct run as [[? ?] ?]; reflexivity).
  assert (Hex : path_exists Sample.fs_out (PurePath "/out") = true)
    by (vm_compute; reflexivity).
  assert (Hq : ~ In Sample.notes (figure_files (PurePath "/out"))).
  { intros Hin. repeat destruct Hin as [Hin|Hin]; try discriminate Hin.
    exact Hin. }
  split; [exact Hex|]. split; [exact Hq|]. split; [|vm_compute; reflexivity].
  exact (proj2 (@unrelated_files_untouched Sample.externals Sample.fs_out
                  "/data" "/out" _ _ _
                  sample_reader_readonly sample_builders_readonly
                  sample_savefig_frame Hrun) Hex Sample.notes Hq).
Defined.

(** * The options *)

(** C9. Without options the data directory is
    [../micromagnetic_simulation_data/generated_data/oommf] and the output
    directory [../figures/generated_plots], both below the directory of the
    script; an option, when given, replaces its default. *)
Theorem default_directories `{Externals} (here : Path) :
  wf_path here = true ->
  PurePath (default_data_dir here)
  = mkPath (absolute here)
           (parts here ++ [".."; "micromagnetic_simulation_data"; "generated_data"; "oommf"])
  /\ PurePath (default_output_dir here)
     = mkPath (absolute here) (parts here ++ [".."; "figures"; "generated_plots"])
  /\ main here None None
     = reproduce_figures (default_data_dir here) (default_output_dir here)
  /\ (forall d o, main here (Some d) (Some o) = reproduce_figures d o)
  /\ (forall d, main here (Some d) None = reproduce_figures d (default_output_dir here))
  /\ (forall o, main here None (Some o) = reproduce_figures (default_data_dir here) o).
Proof.
  intros Hwf. unfold default_data_dir, default_output_dir.
  rewrite !PurePath_str by now apply wf_joinpath.
  repeat split.
Qed.

Lemma default_directories_witness :
  let here := mkPath true ["home"; "user"; "repo"; "src"] in
  wf_path here = true
  /\ default_data_dir here
     = "/home/user/repo/src/../micromagnetic_simulation_data/generated_data/oommf"
  /\ PurePath (default_data_dir here)
     = mkPath true ["home"; "user"; "repo"; "src"; "..";
                    "micromagnetic_simulation_data"; "generated_data"; "oommf"]
  /\ PurePath (default_output_dir here)
     = mkPath true ["home"; "user"; "repo"; "src"; ".."; "figures"; "generated_plots"].
Proof.
  intros here.
  assert (Hwf : wf_path here = true) by reflexivity.
  split; [exact Hwf|]. split; [reflexivity|].
  destruct (@default_directories Sample.externals here Hwf) as (Hd & Ho & _).
  split; [exact Hd|exact Ho].
Defined.

(** * Further properties: the output directory *)

(** The three ways the preparation step can go. *)
Lemma prepare_output_dir_cases `{Externals} (fs : gmap Path node) (p : Path) :
  (path_exists fs p = true
   /\ prepare_output_dir p fs = (Returned tt, fs, [Ev_exists p true]))
  \/ (path_exists fs p = false
      /\ exists fs', prepare_output_dir p fs
                     = (Returned tt, fs', [Ev_exists p false; Ev_mkdir p (Ok tt)]))
  \/ (path_exists fs p = false
      /\ exists e fs', prepare_output_dir p fs
                       = (Raised e, fs', [Ev_exists p false; Ev_mkdir p (Err e)])).
Proof.
  rewrite prepare_output_dir_run. destruct (path_exists fs p) eqn:Hex; [now left|].
  right. destruct (Path_mkdir p true false fs) as [[[]|e] fs'].
  - left. split; [reflexivity|]. now exists fs'.
  - right. split; [reflexivity|]. now exists e, fs'.
Qed.

Lemma wf_fs_out_file : wf_fs Sample.fs_out_file.
Proof.
  intros q Hex. unfold path_exists, entry in Hex.
  destruct (parts q) as [|c l] eqn:Hq.
  - unfold is_dir, entry, parent. simpl. now rewrite Hq.
  - unfold Sample.fs_out_file in Hex. rewrite lookup_insert in Hex.
    destruct (decide (Sample.out = q)) as [<-|]; [reflexivity|].
    now rewrite lookup_empty in Hex.
Qed.

(** * Further properties: runs that fail *)

(** X2. When [mkdir] raises, whatever the exception, the run is over: it
    ends with that exception and with a non-zero status.  The call was the
    one on the output directory, made after the existence test of that
    directory said no; it is the last call of the run: nothing was printed
    and no collaborator was called.  Every entry the file system had before
    the run is still there. *)
Theorem failed_preparation_ends_run `{Externals} (fs : gmap Path node) (d o : string)
    (out : outcome unit) (fs' : gmap Path node) (t : list (event reader figure))
    (p : Path) (e : exn) :
  reproduce_figures d o fs = (out, fs', t) ->
  In (Ev_mkdir p (Err e)) t ->
  out = Raised e
  /\ p = PurePath o
  /\ path_exists fs (PurePath o) = false
  /\ t = probes fs (PurePath d)
         ++ [Ev_exists (PurePath o) false; Ev_mkdir (PurePath o) (Err e)]
  /\ stdout t = []
  /\ (forall q n, fs !! q = Some n -> fs' !! q = Some n)
  /\ exit_status out <> 0%Z.
Proof.
  intros Hrun Hin. revert Hrun.
  assert (Htests : ~ In (Ev_mkdir p (Err e)) (probes fs (PurePath d))).
  { intros Hev. now apply probes_events in Hev as [_ Hev]. }
  remember (probes fs (PurePath d)) as tests eqn:Heqtests.
  run_script; rewrite <- ?Heqtests; intros [= <- <- <-];
    try match goal with
      | Hp : prepare_output_dir _ _ = (Returned tt, _, _) |- _ =>
          destruct (proj2 (proj2 (prepare_output_dir_events _ _ _ _ _ Hp)) eq_refl)
            as [-> | ->]
      end;
    repeat first
      [ apply in_app_or in Hin as [Hin|Hin]; [tauto|]
      | destruct Hin as [Hin|Hin]; [try discriminate Hin|] ];
    try contradiction.
  - match goal with
    | Hp : prepare_output_dir _ _ = _ |- _ => rename Hp into Hprep
    end.
    pose proof (proj1 (prepare_output_dir_keeps _ _ _ _ _ Hprep)) as Hkept.
    destruct (prepare_output_dir_cases fs (PurePath o))
      as [(_ & Hcase)|[(_ & fs1 & Hcase)|(Hfree & e1 & fs1 & Hcase)]];
      rewrite Hcase in Hprep; try discriminate Hprep.
    injection Hprep as He Hfs Hl. subst.
    repeat (destruct Hin as [Hin|Hin]; [try discriminate Hin|]);
      try contradiction.
    injection Hin as <- <-.
    repeat (split; [first [reflexivity|assumption]|]). discriminate.
  - match goal with
    | Hp : prepare_output_dir _ _ = _ |- _ =>
        apply prepare_output_dir_events in Hp as (Hne & _);
        exfalso; eapply Hne; reflexivity
    end.
Qed.

Lemma failed_preparation_ends_run_witness :
  let os := Links.externals Links.fs_full_out_dangling in
  let fs := Links.seen Links.fs_full_out_dangling in
  let run := @reproduce_figures os "/data" "/out" fs in
  run = (fst (fst run), snd (fst run), snd run)
  /\ In (Ev_mkdir Sample.out (Err FileExistsError)) (snd run)
  /\ fst (fst run) = Raised FileExistsError
  /\ stdout (snd run) = [].
Proof.
  intros os fs run.
  assert (Hrun : run = (fst (fst run), snd (fst run), snd run))
    by (destruct run as [[? ?] ?]; reflexivity).
  assert (Hin : In (Ev_mkdir Sample.out (Err FileExistsError)) (snd run))
    by (vm_compute; tauto).
  split; [exact Hrun|]. split; [exact Hin|].
  destruct (@failed_preparation_ends_run os fs "/data" "/out" _ _ _ Sample.out _ Hrun Hin)
    as (Hout & _ & _ & _ & Hstdout & _).
  split; [exact Hout|exact Hstdout].
Defined.

Lemma probes_only_exists `{Externals} (fs : gmap Path node) (d : Path)
    (ev : event reader figure) :
  In ev (probes fs d) -> exists p b, ev = Ev_exists p b.
Proof.
  unfold probes. intros Hin. apply in_map_iff in Hin as (f & <- & _). now eexists _, _.
Qed.

Lemma probes_no_savefig `{Externals} (fs : gmap Path node) (d : Path) :
  Forall (fun ev => is_savefig ev = false) (probes fs d).
Proof.
  apply List.Forall_forall. intros ev Hin.
  now apply probes_only_exists in Hin as (p & b & ->).
Qed.

(** X3. Nothing is saved before all four figures are built: a [savefig]
    call, whatever its result, comes after the four builders have returned,
    2, 3, 4, 5 in this order and on one reader.  So a run in which the
    reader or a builder raises saves nothing. *)
Theorem figures_saved_only_after_all_built `{Externals}
    (fs : gmap Path node) (d o : string)
    (out : outcome unit) (fs' : gmap Path node) (t : list (event reader figure))
    (fig : figure) (fname : string) (r : result unit) :
  reproduce_figures d o fs = (out, fs', t) ->
  In (Ev_savefig fig fname r) t ->
  exists t0 t1 rd f2 f3 f4 f5,
    t = t0 ++ [ Ev_make_figure 2 rd (Ok f2); Ev_make_figure 3 rd (Ok f3);
                Ev_make_figure 4 rd (Ok f4); Ev_make_figure 5 rd (Ok f5) ] ++ t1
    /\ Forall (fun ev => is_savefig ev = false) t0
    /\ In (Ev_savefig fig fname r) t1.
Proof.
  intros Hrun Hin. revert Hrun.
  pose proof (probes_no_savefig fs (PurePath d)) as Htests.
  remember (probes fs (PurePath d)) as tests eqn:Heqtests.
  assert (Hnot : ~ In (Ev_savefig fig fname r) tests).
  { intros Hev. rewrite List.Forall_forall in Htests. now apply Htests in Hev. }
  run_script; rewrite <- ?Heqtests; intros [= <- <- <-];
    try match goal with
      | Hp : prepare_output_dir _ _ = (Returned tt, _, _) |- _ =>
          destruct (proj2 (proj2 (prepare_output_dir_events _ _ _ _ _ Hp)) eq_refl)
            as [-> | ->]
      end;
    try (apply in_app_or in Hin as [Hin|Hin]; [tauto|]);
    try (apply in_app_or in Hin as [Hin|Hin];
         [repeat (destruct Hin as [Hin|Hin]; [discriminate Hin|]); contradiction|]);
    repeat (destruct Hin as [Hin|Hin]; [discriminate Hin|]);
    try contradiction;
    try match goal with
      | Hp : prepare_output_dir _ _ = (?x, _, ?l) |- _ =>
          is_var l; exfalso;
          pose proof (proj1 (proj2 (prepare_output_dir_events _ _ _ _ _ Hp))) as Hquiet;
          destruct (prepare_output_dir_cases fs (PurePath o))
            as [(_ & Hcase)|[(_ & fs1 & Hcase)|(_ & ? & ? & Hcase)]];
          rewrite Hcase in Hp; injection Hp as _ _ <-;
          repeat (destruct Hin as [Hin|Hin]; [discriminate Hin|]); contradiction
      end.
  all: match goal with
       | |- exists t0 t1 _ _ _ _ _, ?a ++ ?b ++ ?L = _ /\ _ =>
           exists (a ++ b ++ firstn 6 L), (skipn 10 L)
       end;
    do 5 eexists;
    (split; [rewrite <- !List.app_assoc; reflexivity|]);
    (split; [|exact Hin]);
    apply Forall_app; (split; [exact Htests|]);
    apply Forall_app; split; now repeat constructor.
Qed.

Lemma figures_saved_only_after_all_built_witness :
  let run := @reproduce_figures Sample.externals "/data" "/out" Blocked.fs_blocked in
  let failed : event (@reader Sample.externals) (@figure Sample.externals) :=
    Ev_savefig 4 "/out/figure_4.png" (Err (OtherError "IsADirectoryError")) in
  run = (fst (fst run), snd (fst run), snd run)
  /\ In failed (snd run)
  /\ exists t0 t1 rd f2 f3 f4 f5,
       snd run
       = t0 ++ [ Ev_make_figure 2 rd (Ok f2); Ev_make_figure 3 rd (Ok f3);
                 Ev_make_figure 4 rd (Ok f4); Ev_make_figure 5 rd (Ok f5) ] ++ t1
       /\ Forall (fun ev => is_savefig ev = false) t0
       /\ In failed t1.
Proof.
  intros run failed.
  assert (Hrun : run = (fst (fst run), snd (fst run), snd run))
    by (destruct run as [[? ?] ?]; reflexivity).
  assert (Hin : In failed (snd run)) by (vm_compute; tauto).
  split; [exact Hrun|]. split; [exact Hin|].
  exact (@figures_saved_only_after_all_built Sample.externals Blocked.fs_blocked
           "/data" "/out" _ _ _ _ _ _ Hrun Hin).
Defined.

(** * Further properties: what a run tells its caller *)

Lemma all_false_missing {A} (f : A -> bool) (l : list A) :
  all (map f l) = false -> exists x, In x l /\ f x = false.
Proof.
  unfold all. induction l as [|x l IH]; [discriminate|].
  cbn [map forallb id]. unfold id at 1. destruct (f x) eqn:Hx.
  - intros Hl. destruct (IH Hl) as (y & Hy & Hfy). exists y. split; [now right|exact Hfy].
  - intros _. exists x. split; [now left|exact Hx].
Qed.

(** X4. The two closing messages are printed exactly when the run
    returned: "Done." on standard output means that the four figures were
    built and the four [savefig] calls returned, and no run that ends in an
    exit or an exception prints it. *)
Theorem completion_message_iff_returned `{Externals}
    (fs : gmap Path node) (d o : string)
    (out : outcome unit) (fs' : gmap Path node) (t : list (event reader figure)) :
  reproduce_figures d o fs = (out, fs', t) ->
  (In (Ev_print "Done.") t <-> out = Returned tt)
  /\ (In (Ev_print "Plots have been successfully generated in output directory.") t
      <-> out = Returned tt).
Proof.
  intros Hrun. revert Hrun.
  assert (Htests : forall s, ~ In (Ev_print s) (probes fs (PurePath d))).
  { intros s Hev. now apply probes_only_exists in Hev as (p & b & Hev). }
  remember (probes fs (PurePath d)) as tests eqn:Heqtests.
  run_script; rewrite <- ?Heqtests; intros [= <- <- <-];
    try match goal with
      | Hp : prepare_output_dir _ _ = (Returned tt, _, _) |- _ =>
          destruct (proj2 (proj2 (prepare_output_dir_events _ _ _ _ _ Hp)) eq_refl)
            as [-> | ->]
      | Hp : prepare_output_dir _ _ = (_, _, _) |- _ =>
          destruct (prepare_output_dir_cases fs (PurePath o))
            as [(_ & Hcase)|[(_ & fs1 & Hcase)|(_ & ? & ? & Hcase)]];
          rewrite Hcase in Hp; try discriminate Hp; injection Hp as <- <- <-
      end;
    (split; split; intros Hx;
     [ try reflexivity | try discriminate Hx | try reflexivity | try discriminate Hx ]);
    try (exfalso;
         repeat first
           [ apply in_app_or in Hx as [Hx|Hx]; [now apply Htests in Hx|]
           | destruct Hx as [Hx|Hx];
             [first [discriminate Hx
                    | injection Hx as Hx; vm_compute in Hx; discriminate Hx]|] ];
         contradiction);
    apply in_or_app; right; apply in_or_app; right;
    repeat first [left; reflexivity | right].
Qed.

Lemma completion_message_iff_returned_witness :
  let run := @reproduce_figures Sample.externals "/data" "/out/plots" Sample.fs_full in
  run = (fst (fst run), snd (fst run), snd run)
  /\ fst (fst run) = Returned tt
  /\ In (Ev_print "Done.") (snd run).
Proof.
  intros run.
  assert (Hrun : run = (fst (fst run), snd (fst run), snd run))
    by (destruct run as [[? ?] ?]; reflexivity).
  assert (Hout : fst (fst run) = Returned tt) by (vm_compute; reflexivity).
  split; [exact Hrun|]. split; [exact Hout|].
  exact (proj2 (proj1 (@completion_message_iff_returned Sample.externals
                         Sample.fs_full "/data" "/out/plots" _ _ _ Hrun)) Hout).
Defined.

(** X5. The exit status does not tell a missing input from a success: it
    is 0 exactly when the run returned or a required file is missing, the
    exit of the validator always being the one without a code; every other
    run ends with an exception, hence with a non-zero status. *)
Theorem exit_status_zero_iff `{Externals}
    (fs : gmap Path node) (d o : string)
    (out : outcome unit) (fs' : gmap Path node) (t : list (event reader figure)) :
  reproduce_figures d o fs = (out, fs', t) ->
  (exit_status out = 0%Z <->
   out = Returned tt
   \/ exists fname, In fname filenames
                    /\ path_exists fs (joinpath (PurePath d) fname) = false)
  /\ (forall c, out = SystemExit c ->
      c = None
      /\ exists fname, In fname filenames
                       /\ path_exists fs (joinpath (PurePath d) fname) = false)
  /\ (exit_status out <> 0%Z -> exists e, out = Raised e).
Proof.
  intros Hrun. revert Hrun.
  run_script; intros [= <- <- <-];
    try match goal with
      | Hp : prepare_output_dir _ _ = (SystemExit _, _, _) |- _ =>
          apply prepare_output_dir_events in Hp as (Hne & _);
          exfalso; eapply Hne; reflexivity
      end.
  all: try match goal with
       | Hall : all _ = true |- _ =>
           assert (Hnone : ~ exists fname, In fname filenames
                     /\ path_exists fs (joinpath (PurePath d) fname) = false)
             by (intros (f & Hf & Hmiss); rewrite all_exists_iff in Hall;
                 rewrite (Hall f Hf) in Hmiss; discriminate Hmiss)
       end.
  all: try match goal with
       | Hall : all _ = false |- _ =>
           apply all_false_missing in Hall
       end.
  all: split;
    [ split;
      [ intros Hz; cbn in Hz;
        first [discriminate Hz | now left | now right]
      | intros [Hr|Hm];
        first [reflexivity | discriminate Hr | contradiction] ]
    | split;
      [ intros c Hc;
        first [discriminate Hc | injection Hc as <-; now split]
      | intros Hne;
        first [exfalso; apply Hne; reflexivity | now eexists] ] ].
Qed.

Lemma exit_status_zero_iff_witness :
  let run := @reproduce_figures Sample.externals "/data" "/out" Sample.fs_no_mzs in
  run = (fst (fst run), snd (fst run), snd run)
  /\ (exists fname, In fname filenames
        /\ path_exists Sample.fs_no_mzs (joinpath (PurePath "/data") fname) = false)
  /\ exit_status (fst (fst run)) = 0%Z.
Proof.
  intros run.
  assert (Hrun : run = (fst (fst run), snd (fst run), snd run))
    by (destruct run as [[? ?] ?]; reflexivity).
  assert (Hmiss : exists fname, In fname filenames
     /\ path_exists Sample.fs_no_mzs (joinpath (PurePath "/data") fname) = false).
  { exists "mzs.npy". split; [simpl; tauto|vm_compute; reflexivity]. }
  split; [exact Hrun|]. split; [exact Hmiss|].
  exact (proj2 (proj1 (@exit_status_zero_iff Sample.externals
                         Sample.fs_no_mzs "/data" "/out" _ _ _ Hrun))
           (or_intror Hmiss)).
Defined.

(** * Further properties: the reader *)

Lemma prepare_output_dir_exists `{Externals} (fs fs' : gmap Path node) (p : Path)
    (t : list (event reader figure)) :
  prepare_output_dir p fs = (Returned tt, fs', t) -> path_exists fs' p = true.
Proof.
  intros Hrun.
  destruct (prepare_output_dir_cases fs p)
    as [(Hex & Hcase)|[(_ & fs1 & Hcase)|(_ & ? & ? & Hcase)]];
    rewrite Hcase in Hrun; try discriminate Hrun; injection Hrun as <- _.
  - exact Hex.
  - rewrite prepare_output_dir_run in Hcase.
    destruct (path_exists fs p); [discriminate Hcase|]. unfold Path_mkdir in Hcase.
    destruct (mkdir_from (absolute p) (rev (parts p)) true false fs)
      as [[[]|e] fs2] eqn:Hmk; [|discriminate Hcase].
    injection Hcase as <-.
    pose proof (mkdir_from_is_dir _ _ _ _ _ _ Hmk) as Hd.
    rewrite Path_mkdir_eta in Hd. now apply path_exists_is_dir.
Qed.

Lemma probes_no_DataReader `{Externals} (fs : gmap Path node) (d : Path) :
  List.filter is_DataReader (probes fs d) = [].
Proof. reflexivity. Qed.

(** X6. The reader is constructed at most once in a run, and only on a
    validated data directory with the output path in place: a [DataReader]
    call is made with the data directory as given (not resolved) and the
    format OOMMF, after all four required files were found and after the
    preparation of the output directory returned. *)
Theorem reader_constructed_after_validation `{Externals}
    (fs : gmap Path node) (d o : string)
    (out : outcome unit) (fs' : gmap Path node) (t : list (event reader figure))
    (dd : Path) (fmt : string) (r : result reader) :
  reproduce_figures d o fs = (out, fs', t) ->
  In (Ev_DataReader dd fmt r) t ->
  dd = PurePath d
  /\ fmt = "OOMMF"
  /\ (forall fname, In fname filenames ->
                    path_exists fs (joinpath (PurePath d) fname) = true)
  /\ (exists prep fs1 fs2,
        prepare_output_dir (PurePath o) fs = (Returned tt, fs1, prep)
        /\ path_exists fs1 (PurePath o) = true
        /\ DataReader (PurePath d) "OOMMF" fs1 = (r, fs2))
  /\ length (List.filter is_DataReader t) = 1.
Proof.
  intros Hrun Hin. revert Hrun.
  assert (Htests : ~ In (Ev_DataReader dd fmt r) (probes fs (PurePath d))).
  { intros Hev. now apply probes_only_exists in Hev as (p & b & Hev). }
  pose proof (probes_no_DataReader fs (PurePath d)) as Hcount.
  remember (probes fs (PurePath d)) as tests eqn:Heqtests.
  run_script; rewrite <- ?Heqtests; intros [= <- <- <-];
    try match goal with
      | Hp : prepare_output_dir _ _ = (Returned tt, _, _) |- _ =>
          pose proof (prepare_output_dir_exists _ _ _ _ Hp) as Hthere;
          destruct (proj2 (proj2 (prepare_output_dir_events _ _ _ _ _ Hp)) eq_refl)
            as [-> | ->]
      | Hp : prepare_output_dir _ _ = (_, _, _) |- _ =>
          destruct (prepare_output_dir_cases fs (PurePath o))
            as [(_ & Hcase)|[(_ & fs1 & Hcase)|(_ & ? & ? & Hcase)]];
          rewrite Hcase in Hp; try discriminate Hp; injection Hp as <- <- <-
      end;
    repeat first
      [ apply in_app_or in Hin as [Hin|Hin]; [tauto|]
      | destruct Hin as [Hin|Hin]; [try discriminate Hin|] ];
    try contradiction;
    injection Hin as <- <- <-;
    (split; [reflexivity|]); (split; [reflexivity|]);
    (split; [now apply all_exists_iff|]);
    (split; [do 3 eexists; split; [first [eassumption|reflexivity]
                                  |split; [exact Hthere|first [eassumption|reflexivity]]]|]);
    rewrite !List.filter_app, Hcount; reflexivity.
Qed.

Lemma reader_constructed_after_validation_witness :
  let run := @reproduce_figures Sample.externals "/data" "/out" Sample.fs_dirs in
  let call : event (@reader Sample.externals) (@figure Sample.externals) :=
    Ev_DataReader (PurePath "/data") "OOMMF" (Err (OtherError "IsADirectoryError")) in
  run = (fst (fst run), snd (fst run), snd run)
  /\ In call (snd run)
  /\ (forall fname, In fname filenames ->
        path_exists Sample.fs_dirs (joinpath (PurePath "/data") fname) = true)
  /\ length (List.filter is_DataReader (snd run)) = 1.
Proof.
  intros run call.
  assert (Hrun : run = (fst (fst run), snd (fst run), snd run))
    by (destruct run as [[? ?] ?]; reflexivity).
  assert (Hin : In call (snd run)) by (vm_compute; tauto).
  split; [exact Hrun|]. split; [exact Hin|].
  destruct (@reader_constructed_after_validation Sample.externals Sample.fs_dirs
              "/data" "/out" _ _ _ _ _ _ Hrun Hin)
    as (_ & _ & Hall & _ & Hone).
  split; [exact Hall|exact Hone].
Defined.

(** * Further properties: partial output *)

Lemma child_distinct (p : Path) (n m : string) : n <> m -> child p n <> child p m.
Proof. intros Hnm Heq. now apply child_inj in Heq. Qed.

(** X7. Nothing is rolled back when a [savefig] raises.  The run stops at
    the failing call; the figures before it, in the order 2, 3, 4, 5, were
    saved and, with a [savefig] that writes the image at its path and
    touches nothing else, their files are in the file system the run
    leaves; the figures after it were not attempted. *)
Theorem saved_figures_survive_a_failure `{Externals} (render : figure -> string)
    (fs : gmap Path node) (d o : string)
    (out : outcome unit) (fs' : gmap Path node) (t : list (event reader figure))
    (fig : figure) (fname : string) (e : exn) :
  (forall fig fname fs0 fs1,
     savefig fig fname fs0 = (Ok tt, fs1) ->
     fs1 = <[PurePath fname := File (render fig)]> fs0) ->
  (forall fig fname fs0 r fs1 q,
     savefig fig fname fs0 = (r, fs1) -> q <> PurePath fname -> fs1 !! q = fs0 !! q) ->
  reproduce_figures d o fs = (out, fs', t) ->
  In (Ev_savefig fig fname (Err e)) t ->
  exists t0 saved,
    t = t0 ++ saved ++ [Ev_savefig fig fname (Err e)]
    /\ Forall (fun ev => is_savefig ev = false) t0
    /\ Forall (saved_in render fs') saved
    /\ omap savefig_name (saved ++ [Ev_savefig fig fname (Err e)])
       `prefix_of` map (fun name => str (child (PurePath o) name))
                       ["figure_2.png"; "figure_3.png"; "figure_4.png"; "figure_5.png"].
Proof.
  intros Hwrites Hframe Hrun Hin. revert Hrun.
  pose proof (probes_no_savefig fs (PurePath d)) as Htests.
  remember (probes fs (PurePath d)) as tests eqn:Heqtests.
  assert (Hnot : ~ In (Ev_savefig fig fname (Err e)) tests).
  { intros Hev. rewrite List.Forall_forall in Htests. now apply Htests in Hev. }
  pose proof (child_distinct (PurePath o)) as Hne.
  run_script; rewrite <- ?Heqtests; intros [= <- <- <-];
    try match goal with
      | Hp : prepare_output_dir _ _ = (Returned tt, _, _) |- _ =>
          destruct (proj2 (proj2 (prepare_output_dir_events _ _ _ _ _ Hp)) eq_refl)
            as [-> | ->]
      | Hp : prepare_output_dir _ _ = (_, _, _) |- _ =>
          destruct (prepare_output_dir_cases fs (PurePath o))
            as [(_ & Hcase)|[(_ & fs1 & Hcase)|(_ & ? & ? & Hcase)]];
          rewrite Hcase in Hp; try discriminate Hp; injection Hp as <- <- <-
      end;
    repeat first
      [ apply in_app_or in Hin as [Hin|Hin]; [tauto|]
      | destruct Hin as [Hin|Hin]; [try discriminate Hin|] ];
    try contradiction;
    injection Hin as <- <- <-;
    repeat match goal with u : unit |- _ => destruct u end;
    repeat match goal with
      | Hs : savefig _ _ _ = (Ok tt, _) |- _ => apply Hwrites in Hs
      end;
    match goal with
    | Hs : savefig _ _ _ = (Err _, _) |- _ =>
        pose proof (fun q => Hframe _ _ _ _ _ q Hs) as Hfr; clear Hs
    end;
    rewrite ?figure_name_path in * by reflexivity;
    match goal with
    | |- exists t0 saved, ?a ++ ?b ++ ?L = _ /\ _ =>
        exists (a ++ b ++ firstn 10 L), (removelast (skipn 10 L))
    end;
    (split; [rewrite <- !List.app_assoc; reflexivity|]);
    (split; [apply Forall_app; (split; [exact Htests|]);
             apply Forall_app; split; now repeat constructor|]);
    (split; [|eexists; reflexivity]);
    subst;
    repeat (apply List.Forall_cons || apply List.Forall_nil);
    (eexists _, _; split; [reflexivity|]);
    rewrite ?figure_name_path by reflexivity;
    rewrite Hfr by (apply Hne; discriminate);
    rewrite ?lookup_insert_ne by (apply Hne; discriminate);
    apply lookup_insert_eq.
Qed.

Lemma saved_figures_survive_a_failure_witness :
  let run := @reproduce_figures Sample.externals "/data" "/out" Blocked.fs_blocked in
  let failed : event (@reader Sample.externals) (@figure Sample.externals) :=
    Ev_savefig 4 "/out/figure_4.png" (Err (OtherError "IsADirectoryError")) in
  run = (fst (fst run), snd (fst run), snd run)
  /\ In failed (snd run)
  /\ exists t0 saved,
       snd run = t0 ++ saved ++ [failed]
       /\ Forall (fun ev => @is_savefig Sample.externals ev = false) t0
       /\ Forall (@saved_in Sample.externals Sample.render (snd (fst run))) saved
       /\ omap (@savefig_name Sample.externals) (saved ++ [failed])
          `prefix_of` map (fun name => str (child (PurePath "/out") name))
                          ["figure_2.png"; "figure_3.png"; "figure_4.png"; "figure_5.png"].
Proof.
  intros run failed.
  assert (Hrun : run = (fst (fst run), snd (fst run), snd run))
    by (destruct run as [[? ?] ?]; reflexivity).
  assert (Hin : In failed (snd run)) by (vm_compute; tauto).
  split; [exact Hrun|]. split; [exact Hin|].
  exact (@saved_figures_survive_a_failure Sample.externals Sample.render
           Blocked.fs_blocked "/data" "/out" _ _ _ _ _ _
           sample_savefig_writes sample_savefig_frame Hrun Hin).
Defined.

(** * Further properties: running again *)

Lemma path_exists_lookup_eq (fs fs' : gmap Path node) (q : Path) :
  fs' !! q = fs !! q -> path_exists fs' q = path_exists fs q.
Proof.
  unfold path_exists, entry. intros Heq. destruct (parts q); [reflexivity|now rewrite Heq].
Qed.

Lemma path_exists_kept (fs fs' : gmap Path node) (q : Path) :
  (forall n, fs !! q = Some n -> fs' !! q = Some n) ->
  path_exists fs q = true -> path_exists fs' q = true.
Proof.
  unfold path_exists, entry. intros Hkeep. destruct (parts q); [reflexivity|].
  destruct (fs !! q) as [n|] eqn:Hq; [|discriminate]. now rewrite (Hkeep n eq_refl).
Qed.

Lemma child_last (p q : Path) (n m : string) : child p n = child q m -> n = m.
Proof.
  unfold child. intros [= _ Heq]. apply app_inj_tail in Heq. tauto.
Qed.

Lemma child_not_itself (p : Path) (n : string) : child p n <> p.
Proof.
  destruct p as [a ws]. unfold child. simpl. intros [= Heq].
  apply (f_equal (@length _)) in Heq. rewrite length_app in Heq. simpl in Heq. lia.
Qed.

(** The required files are none of the figure files, wherever the two
    directories are. *)
Lemma required_not_figure (dd oo : Path) (fname : string) :
  In fname filenames -> ~ In (joinpath dd fname) (figure_files oo).
Proof.
  intros Hf Hin. unfold figure_files in Hin. apply in_map_iff in Hin as (g & Heq & Hg).
  repeat destruct Hf as [<-|Hf]; try contradiction;
    repeat destruct Hg as [<-|Hg]; try contradiction;
    apply child_last in Heq; discriminate Heq.
Qed.

Lemma output_dir_not_figure (oo : Path) : ~ In oo (figure_files oo).
Proof.
  unfold figure_files. intros Hin. apply in_map_iff in Hin as (g & Heq & _).
  now apply child_not_itself in Heq.
Qed.

(** X8. A run that returned leaves everything in place for the next one:
    with a reader and builders that leave the file system alone and a
    [savefig] that touches nothing but its file, on the file system the run
    leaves the validator accepts the data directory again and the output
    directory needs no [mkdir]. *)
Theorem second_run_finds_everything `{Externals}
    (fs : gmap Path node) (d o : string)
    (fs' : gmap Path node) (t : list (event reader figure)) :
  (forall dd fmt fs0 r fs1, DataReader dd fmt fs0 = (r, fs1) -> fs1 = fs0) ->
  (forall n rd fs0 r fs1, builder n rd fs0 = (r, fs1) -> fs1 = fs0) ->
  (forall fig fname fs0 r fs1 q,
     savefig fig fname fs0 = (r, fs1) -> q <> PurePath fname -> fs1 !! q = fs0 !! q) ->
  reproduce_figures d o fs = (Returned tt, fs', t) ->
  check_input_data_exists (PurePath d) fs'
  = (Returned tt, fs', probes fs' (PurePath d))
  /\ prepare_output_dir (PurePath o) fs'
     = (Returned tt, fs', [Ev_exists (PurePath o) true]).
Proof.
  intros Hreader Hbuild Hframe Hrun.
  apply successful_run in Hrun
    as (prep & fs1 & rd & fs2 & f2 & fs3 & f3 & fs4 & f4 & fs5 & f5 & fs6
        & fs7 & fs8 & fs9 & Hall & Hprep & Hrd & B2 & B3 & B4 & B5
        & S2 & S3 & S4 & S5 & _).
  apply Hreader in Hrd. apply (Hbuild 2) in B2. apply (Hbuild 3) in B3.
  apply (Hbuild 4) in B4. apply (Hbuild 5) in B5. subst fs2 fs3 fs4 fs5 fs6.
  assert (Hsame : forall q, ~ In q (figure_files (PurePath o)) -> fs' !! q = fs1 !! q).
  { intros q Hq.
    assert (Hne : forall name,
              In name ["figure_2.png"; "figure_3.png"; "figure_4.png"; "figure_5.png"] ->
              q <> PurePath (str (joinpath (PurePath o) name))).
    { intros name Hname ->. apply Hq. unfold figure_files.
      rewrite figure_name_path
        by (repeat destruct Hname as [<-|Hname]; try contradiction; reflexivity).
      now apply in_map. }
    rewrite (Hframe _ _ _ _ _ q S5) by (apply Hne; cbn [In]; tauto).
    rewrite (Hframe _ _ _ _ _ q S4) by (apply Hne; cbn [In]; tauto).
    rewrite (Hframe _ _ _ _ _ q S3) by (apply Hne; cbn [In]; tauto).
    now rewrite (Hframe _ _ _ _ _ q S2) by (apply Hne; cbn [In]; tauto). }
  split.
  - rewrite check_input_data_exists_run.
    assert (Hall' : all (map (fun fname => path_exists fs' (joinpath (PurePath d) fname))
                             filenames) = true).
    { apply all_exists_iff. intros fname Hf.
      rewrite (path_exists_lookup_eq fs1 fs')
        by (apply Hsame; now apply required_not_figure).
      apply (path_exists_kept fs fs1); [|now apply Hall].
      intros n. now apply (prepare_output_dir_keeps _ _ _ _ _ Hprep). }
    now rewrite Hall'.
  - apply prepare_output_dir_again.
    rewrite (path_exists_lookup_eq fs1 fs') by (apply Hsame, output_dir_not_figure).
    now apply (prepare_output_dir_exists _ _ _ _ Hprep).
Qed.

Lemma second_run_finds_everything_witness :
  exists fs' t,
    @reproduce_figures Sample.externals "/data" "/out/plots" Sample.fs_full
    = (Returned tt, fs', t)
    /\ @check_input_data_exists Sample.externals (PurePath "/data") fs'
       = (Returned tt, fs', @probes Sample.externals fs' (PurePath "/data"))
    /\ @prepare_output_dir Sample.externals (PurePath "/out/plots") fs'
       = (Returned tt, fs', [Ev_exists (PurePath "/out/plots") true]).
Proof.
  destruct sample_run_returns as (fs' & t & Hrun). exists fs', t.
  split; [exact Hrun|].
  exact (@second_run_finds_everything Sample.externals Sample.fs_full
           "/data" "/out/plots" fs' t
           sample_reader_readonly sample_builders_readonly sample_savefig_frame Hrun).
Defined.

(** * Further properties: a data directory that is not there *)

Lemma joinpath_required (dd : Path) (fname : string) :
  In fname filenames -> joinpath dd fname = child dd fname.
Proof.
  intros Hf. repeat destruct Hf as [<-|Hf]; try contradiction; reflexivity.
Qed.

(** X9. A data directory that does not exist, or that is not a directory,
    is reported like a missing file: in a file tree none of the four names
    can exist below it, so all four tests fail, the message is printed and
    the run exits with status 0, without any exception and without touching
    the file system. *)
Theorem missing_data_directory_rejected `{Externals}
    (fs : gmap Path node) (d o : string) :
  wf_fs fs ->
  is_dir fs (PurePath d) = false ->
  probes fs (PurePath d)
  = map (fun fname => Ev_exists (joinpath (PurePath d) fname) false) filenames
  /\ reproduce_figures d o fs
     = (SystemExit None, fs,
        probes fs (PurePath d)
        ++ [Ev_print (not_found_message (PurePath d) filenames)])
  /\ exit_status (fst (fst (reproduce_figures d o fs))) = 0%Z.
Proof.
  intros Hwf Hnd.
  assert (Hnone : forall fname, In fname filenames ->
            path_exists fs (joinpath (PurePath d) fname) = false).
  { intros fname Hf. apply not_true_is_false. intros Hex.
    rewrite (joinpath_required _ _ Hf) in Hex. apply Hwf in Hex.
    rewrite parent_child in Hex. congruence. }
  assert (Hrun : reproduce_figures d o fs
     = (SystemExit None, fs,
        probes fs (PurePath d)
        ++ [Ev_print (not_found_message (PurePath d) filenames)])).
  { apply reproduce_figures_rejected. exists "mzs.npy".
    split; [simpl; tauto|apply Hnone; simpl; tauto]. }
  split; [|split; [exact Hrun|now rewrite Hrun]].
  unfold probes. apply map_ext_in. intros f Hf. now rewrite (Hnone f Hf).
Qed.

Lemma missing_data_directory_rejected_witness :
  wf_fs Sample.fs_out_file
  /\ is_dir Sample.fs_out_file (PurePath "/out") = false
  /\ @reproduce_figures Sample.externals "/out" "/plots" Sample.fs_out_file
     = (SystemExit None, Sample.fs_out_file,
        @probes Sample.externals Sample.fs_out_file (PurePath "/out")
        ++ [Ev_print (not_found_message (PurePath "/out") filenames)]).
Proof.
  assert (Hnd : is_dir Sample.fs_out_file (PurePath "/out") = false)
    by (vm_compute; reflexivity).
  split; [exact wf_fs_out_file|]. split; [exact Hnd|].
  exact (proj1 (proj2 (@missing_data_directory_rejected Sample.externals
                         Sample.fs_out_file "/out" "/plots" wf_fs_out_file Hnd))).
Defined.
